(** * Classroom API: authentication and authorization contract

    A shallow embedding of the request handlers of the classroom API
    (routes/auth.js, routes/books.js, models/Book.js) together with the
    collaborators they call (the Mongoose collections, jsonwebtoken,
    express-validator, bcrypt), and the properties of the access-control
    contract proved on that embedding. *)

From Stdlib Require Import ZArith QArith String Ascii List Bool Lia.
From stdpp Require Import gmap strings list fin_maps sorting pretty.

Set Warnings "-register-all".

Local Open Scope Z_scope.
Local Open Scope string_scope.

(** ** JavaScript values *)

(** An ObjectId is modelled by its 24-digit hexadecimal rendering, so that
    [toString] is the identity and two ids are equal exactly when their
    renderings are. *)
Abbreviation ObjectId := string (only parsing).

Definition ObjectId_toString (o : ObjectId) : string := o.

(** The values that travel in a request body or in an update object. *)
Inductive JValue : Type :=
| JUndefined
| JNull
| JBool (b : bool)
| JNum (n : Q)
| JStr (s : string)
| JObjectId (o : ObjectId)
| JArr (xs : list JValue)
| JObj (kvs : list (string * JValue)).

(** [if (v)]: the truthiness of a JavaScript value. *)
Definition truthy (v : JValue) : bool :=
  match v with
  | JUndefined | JNull => false
  | JBool b => b
  | JNum n => negb (Qeq_bool n 0)
  | JStr s => negb (String.eqb s "")
  | JObjectId _ | JArr _ | JObj _ => true
  end.

(** A property of [req.body], a parsed JSON object; a missing property
    reads [undefined]. *)
Definition prop (o : gmap string JValue) (k : string) : JValue :=
  default JUndefined (o !! k).

(** ** Outcomes of collaborator calls *)

Inductive StoreError : Type :=
| CastFailure
| ValidationFailure
| DuplicateKey
| ImmutableField
| BadCursor.

(** A call either throws or returns. *)
Inductive Outcome (T : Type) : Type :=
| Throws (e : StoreError)
| Returns (x : T).
Arguments Throws {T} e.
Arguments Returns {T} x.

#[global] Instance Outcome_bind : MBind Outcome := fun A B k o =>
  match o with
  | Throws e => Throws e
  | Returns x => k x
  end.

(** The result of casting a value to the type of a schema path. *)
Inductive Cast (T : Type) : Type :=
| CastError
| CastNull
| Casted (x : T).
Arguments CastError {T}.
Arguments CastNull {T}.
Arguments Casted {T} x.

(** ** express-validator chains *)

Inductive Validator : Type :=
| isLength (min max : option nat)
| matches (pattern : string)
| isEmail
| notEmpty
| isInt (min max : Z)
| isFloat (min : Q)
| isBoolean.

Record ValidationChain : Type := body_ {
  field : string;
  optional : bool;
  checks : list (Validator * string)
}.

Record ValidationError : Type := {
  path : string;
  msg : string
}.

(** The eight schema paths of a book (title, author, description, genre,
    year, price, available, addedBy) as the store holds them, the two
    timestamps apart. *)
Definition BookPaths : Type :=
  string * string * option string * option string
  * option Q * option Q * option bool * ObjectId.

(** ** External libraries

    The behaviour of the libraries the handlers call is a parameter of the
    development: no property below depends on how a particular string is
    validated, hashed, signed or cast. *)
Class Platform : Type := {
  (** express-validator: coercion of a field to a string, and the
      validator.js predicates. *)
  toString : JValue -> string;
  validator_js : Validator -> string -> bool;
  (** Mongoose casts of values that are neither of the target type nor
      null. *)
  castString_other : JValue -> Cast string;
  castNumber_other : JValue -> Cast Q;
  castBoolean_other : JValue -> Cast bool;
  castObjectId_other : JValue -> Cast ObjectId;
  (** The Date cast of a value that is not null, in milliseconds since
      the epoch. *)
  castDate_other : JValue -> Cast Z;
  (** MongoDB update operators ([$set], [$inc], [$unset], ...): what an
      update object that uses one makes of the paths of a book, casts and
      update validators included, or the error that refuses it. *)
  updateOperators : gmap string JValue -> BookPaths -> Outcome BookPaths;
  (** The [trim] setter of a String path. *)
  trim : string -> string;
  (** bcrypt: [hash] with an explicit salt, and [compare], which throws
      on illegal arguments or an unreadable digest ([None]). *)
  bcrypt_hash : string -> string -> string;
  bcrypt_compare : JValue -> string -> option bool;
  (** jsonwebtoken: the HS256 signature of a payload under a secret. *)
  hs256 : string -> ObjectId * Z * Z -> string;
  (** [parseInt] of a query parameter; [None] is NaN. *)
  parseInt : option string -> option Z;
  (** MongoDB [$text] search over the indexed paths of a document. *)
  textSearch : string -> list string -> bool
}.

(** The environment of one request: the clock, the process configuration
    and the randomness the request consumes. *)
Record Env : Type := {
  Date_now : Z;                 (* milliseconds since the epoch *)
  JWT_SECRET : option string;   (* process.env.JWT_SECRET *)
  currentYear : Z;              (* new Date().getFullYear() at start-up *)
  newObjectId : ObjectId;       (* the _id given to a new document *)
  genSalt : string              (* the salt bcrypt draws *)
}.

(** ** Mongoose casts *)

Section Casts.
Context `{Platform}.

Definition isHexDigit (c : ascii) : bool :=
  let n := nat_of_ascii c in
  ((48 <=? n) && (n <=? 57) || (65 <=? n) && (n <=? 70)
   || (97 <=? n) && (n <=? 102))%nat.

Definition lowerHexDigit (c : ascii) : ascii :=
  let n := nat_of_ascii c in
  if ((65 <=? n) && (n <=? 70))%nat then ascii_of_nat (n + 32) else c.

Fixpoint allHex (s : string) : bool :=
  match s with
  | EmptyString => true
  | String c r => isHexDigit c && allHex r
  end.

Fixpoint lowerHex (s : string) : string :=
  match s with
  | EmptyString => EmptyString
  | String c r => String (lowerHexDigit c) (lowerHex r)
  end.

(** [ObjectId.isValid] on a string: 24 hexadecimal digits. *)
Definition isHex24 (s : string) : bool :=
  (String.length s =? 24)%nat && allHex s.

Definition castString (v : JValue) : Cast string :=
  match v with
  | JStr s => Casted s
  | JUndefined | JNull => CastNull
  | _ => castString_other v
  end.

Definition castNumber (v : JValue) : Cast Q :=
  match v with
  | JNum n => Casted n
  | JUndefined | JNull => CastNull
  | _ => castNumber_other v
  end.

Definition castBoolean (v : JValue) : Cast bool :=
  match v with
  | JBool b => Casted b
  | JUndefined | JNull => CastNull
  | _ => castBoolean_other v
  end.

Definition castObjectId (v : JValue) : Cast ObjectId :=
  match v with
  | JObjectId o => Casted o
  | JStr s => if isHex24 s then Casted (lowerHex s) else castObjectId_other v
  | JUndefined | JNull => CastNull
  | _ => castObjectId_other v
  end.

Definition castDate (v : JValue) : Cast Z :=
  match v with
  | JUndefined | JNull => CastNull
  | _ => castDate_other v
  end.

(** A required path: null fails the [required] validator. *)
Definition required {T} (c : Cast T) : Outcome T :=
  match c with
  | CastError => Throws CastFailure
  | CastNull => Throws ValidationFailure
  | Casted x => Returns x
  end.

(** A path that may be null. *)
Definition nullable {T} (c : Cast T) : Outcome (option T) :=
  match c with
  | CastError => Throws CastFailure
  | CastNull => Returns None
  | Casted x => Returns (Some x)
  end.

(** A schema validator ([maxlength], [min], [max]) on a cast value. *)
Definition validate {T} (ok : T -> bool) (x : T) : Outcome T :=
  if ok x then Returns x else Throws ValidationFailure.

Definition validateOpt {T} (ok : T -> bool) (x : option T)
  : Outcome (option T) :=
  match x with
  | None => Returns None
  | Some y => if ok y then Returns (Some y) else Throws ValidationFailure
  end.

(** The [length] of a JavaScript string counts UTF-16 code units. A
    string is held here as its UTF-8 bytes: every character starts with
    one byte that is not a continuation byte (10xxxxxx), and a character
    outside the basic plane, the only kind that takes two code units, is
    the only kind whose first byte is 11110xxx. *)
Fixpoint utf16Length (s : string) : nat :=
  match s with
  | EmptyString => 0%nat
  | String c r =>
      let n := nat_of_ascii c in
      ((if (n <? 128) || (192 <=? n) then 1 else 0)
       + (if 240 <=? n then 1 else 0) + utf16Length r)%nat
  end.

(** The [maxlength] validator of a String path: [v.length <= n]. *)
Definition maxlength (n : nat) (s : string) : bool :=
  (utf16Length s <=? n)%nat.

(** express-validator: run one chain on a body. *)
Definition runChain (b : gmap string JValue) (c : ValidationChain)
  : list ValidationError :=
  match optional c, b !! field c with
  | true, None => []
  | _, _ =>
      let s := toString (prop b (field c)) in
      omap (fun vm : Validator * string =>
              if validator_js (fst vm) s then None
              else Some {| path := field c; msg := snd vm |})
           (checks c)
  end.

(** [validationResult(req)] after the chains of a route have run. *)
Definition validationResult (chains : list ValidationChain)
    (b : gmap string JValue) : list ValidationError :=
  concat (map (runChain b) chains).

Definition isEmpty (errors : list ValidationError) : bool :=
  match errors with
  | [] => true
  | _ => false
  end.
End Casts.

(** ** Documents and collections

    A collection maps the [_id] of each document to its remaining paths;
    a document read from a collection carries both. *)
Record Doc (F : Type) : Type := {
  _id : ObjectId;
  doc : F
}.
Arguments _id {F} d.
Arguments doc {F} d.

Section Collections.
Context {F : Type}.

Definition hydrate (kv : ObjectId * F) : Doc F :=
  {| _id := fst kv; doc := snd kv |}.

Definition findById (id : ObjectId) (m : gmap ObjectId F) : option (Doc F) :=
  match m !! id with
  | Some f => Some {| _id := id; doc := f |}
  | None => None
  end.

(** [findOne(q)]: the first document, in the natural order of the
    collection, that satisfies the query. *)
Definition findOne (q : F -> bool) (m : gmap ObjectId F) : option (Doc F) :=
  hydrate <$> List.find (fun kv => q (snd kv)) (map_to_list m).

(** Some document other than [id] satisfies [q]. *)
Definition existsOther (id : ObjectId) (q : F -> bool) (m : gmap ObjectId F)
  : bool :=
  existsb (fun kv => negb (String.eqb (fst kv) id) && q (snd kv))
          (map_to_list m).

Definition findByIdAndDelete (id : ObjectId) (m : gmap ObjectId F)
  : option (Doc F) * gmap ObjectId F :=
  (findById id m, delete id m).
End Collections.

(** ** models/User.js *)

(** Modelled from the spec: the role of a user, the enumeration
    [user | admin] of the missing models/User.js. *)
Inductive Role : Type := user | admin.

Definition Role_toString (r : Role) : string :=
  match r with
  | user => "user"
  | admin => "admin"
  end.

Module User.
(** Modelled from the spec: the User schema of models/User.js (the
    paths username, email, password, role and the two timestamps), its
    pre-save hook that hashes the password, [comparePassword] and
    [toJSON]; the unique indexes on username and email are those that
    mongo-init.js creates. *)
Record t : Type := {
  username : string;
  email : string;
  password : string;   (* the bcrypt digest, never the plaintext *)
  role : Role;
  createdAt : Z;
  updatedAt : Z
}.

(** Modelled from the spec: what [toJSON] of the missing models/User.js
    leaves of a user, every path but the password. *)
Record json : Type := {
  json_id : ObjectId;
  json_username : string;
  json_email : string;
  json_role : Role;
  json_createdAt : Z;
  json_updatedAt : Z
}.

(** Modelled from the spec: [user.toJSON()] of the missing
    models/User.js, the record without its password. *)
Definition toJSON (u : Doc t) : json :=
  {| json_id := _id u;
     json_username := username (doc u);
     json_email := email (doc u);
     json_role := role (doc u);
     json_createdAt := createdAt (doc u);
     json_updatedAt := updatedAt (doc u) |}.

(** Two states of a user record that agree on everything a profile
    update must leave alone. *)
Definition sameCredentials (u u' : t) : Prop :=
  role u' = role u
  /\ password u' = password u
  /\ createdAt u' = createdAt u.

Section Model.
Context `{Platform}.

(** A query condition [{path: v}] on a String path, after the cast. *)
Definition condition (v : JValue) : Outcome (option string) :=
  nullable (castString v).

Definition holds (c : option string) (x : string) : bool :=
  match c with
  | Some s => String.eqb s x
  | None => false
  end.

(** [User.findOne({ $or: [{ email }, { username }] })]. *)
Definition findByEmailOrUsername (em un : JValue) (m : gmap ObjectId t)
  : Outcome (option (Doc t)) :=
  ce ← condition em;
  cu ← condition un;
  Returns (findOne (fun u => holds ce (email u) || holds cu (username u)) m).

(** [User.findOne({ email })]. *)
Definition findByEmail (em : JValue) (m : gmap ObjectId t)
  : Outcome (option (Doc t)) :=
  ce ← condition em;
  Returns (findOne (fun u => holds ce (email u)) m).

(** The unique indexes: no other document has this username or email. *)
Definition taken (id : ObjectId) (u : t) (m : gmap ObjectId t) : bool :=
  existsOther id (fun v => String.eqb (username v) (username u)
                           || String.eqb (email v) (email u)) m.

(** Modelled from the spec: [new User({ username, email, password }).save()]
    with the pre-save hook of the missing models/User.js, which hashes
    the password under a fresh salt before the record is persisted; the
    role defaults to [user], and the store refuses a username or an email
    that another record has. *)
Definition create (env : Env) (un em pw : JValue) (m : gmap ObjectId t)
  : Outcome (Doc t * gmap ObjectId t) :=
  un' ← required (castString un);
  em' ← required (castString em);
  pw' ← required (castString pw);
  let u := {| username := un'; email := em';
              password := bcrypt_hash (genSalt env) pw';
              role := user;
              createdAt := Date_now env; updatedAt := Date_now env |} in
  let id := newObjectId env in
  match m !! id with
  | Some _ => Throws DuplicateKey
  | None =>
      if taken id u m then Throws DuplicateKey
      else Returns ({| _id := id; doc := u |}, <[id := u]> m)
  end.

Definition castRole (v : JValue) : Outcome Role :=
  s ← required (castString v);
  if String.eqb s "user" then Returns user
  else if String.eqb s "admin" then Returns admin
  else Throws ValidationFailure.

(** One path of an update object: absent paths leave the document as
    it is. *)
Definition setPath {T} (upd : gmap string JValue) (k : string)
    (cast : JValue -> Outcome T) (set : T -> t -> t) (u : t) : Outcome t :=
  match upd !! k with
  | None => Returns u
  | Some v => x ← cast v; Returns (set x u)
  end.

Definition set_username (x : string) (u : t) : t :=
  {| username := x; email := email u; password := password u;
     role := role u; createdAt := createdAt u; updatedAt := updatedAt u |}.
Definition set_email (x : string) (u : t) : t :=
  {| username := username u; email := x; password := password u;
     role := role u; createdAt := createdAt u; updatedAt := updatedAt u |}.
Definition set_password (x : string) (u : t) : t :=
  {| username := username u; email := email u; password := x;
     role := role u; createdAt := createdAt u; updatedAt := updatedAt u |}.
Definition set_role (x : Role) (u : t) : t :=
  {| username := username u; email := email u; password := password u;
     role := x; createdAt := createdAt u; updatedAt := updatedAt u |}.
Definition set_updatedAt (x : Z) (u : t) : t :=
  {| username := username u; email := email u; password := password u;
     role := role u; createdAt := createdAt u; updatedAt := x |}.

(** The [$set] an update object amounts to under the schema (strict
    mode: paths outside the schema are dropped). *)
Definition applyUpdate (upd : gmap string JValue) (u : t) : Outcome t :=
  u1 ← setPath upd "username" (fun v => required (castString v)) set_username u;
  u2 ← setPath upd "email" (fun v => required (castString v)) set_email u1;
  u3 ← setPath upd "password" (fun v => required (castString v)) set_password u2;
  setPath upd "role" castRole set_role u3.

(** [User.findByIdAndUpdate(id, upd, { new: true, runValidators: true })]. *)
Definition findByIdAndUpdate (now : Z) (id : ObjectId)
    (upd : gmap string JValue) (m : gmap ObjectId t)
  : Outcome (option (Doc t) * gmap ObjectId t) :=
  match m !! id with
  | None =>
      (* the update is cast before the query is sent *)
      _ ← applyUpdate upd {| username := ""; email := ""; password := "";
                             role := user; createdAt := 0; updatedAt := 0 |};
      Returns (None, m)
  | Some u =>
      u' ← applyUpdate upd u;
      let u'' := set_updatedAt now u' in
      if taken id u'' m then Throws DuplicateKey
      else Returns (Some {| _id := id; doc := u'' |}, <[id := u'']> m)
  end.

(** Modelled from the spec: [user.comparePassword(candidate)] of the
    missing models/User.js, the verification of section 4.1 against the
    stored digest; [None] when it throws. *)
Definition comparePassword (u : Doc t) (candidate : JValue) : option bool :=
  bcrypt_compare candidate (password (doc u)).
End Model.
End User.

(** ** jsonwebtoken *)

Module jwt.
Record Payload : Type := {
  userId : ObjectId;
  iat : Z;   (* seconds since the epoch *)
  exp : Z
}.

(** A bearer token: a payload with a signature, or a string that does
    not parse as one. *)
Inductive Token : Type :=
| JWS (payload : Payload) (signature : string)
| Malformed (raw : string).

Inductive VerifyError : Type := InvalidToken | ExpiredToken.

(** [Math.floor(Date.now() / 1000)]. *)
Definition clockTimestamp (now : Z) : Z := now / 1000.

Section Jwt.
Context `{Platform}.

Definition signature_of (secret : string) (p : Payload) : string :=
  hs256 secret (userId p, iat p, exp p).

(** [jwt.sign({ userId }, secret, { expiresIn })], [expiresIn] in
    seconds. *)
Definition sign (now : Z) (uid : ObjectId) (secret : string)
    (expiresIn : Z) : Token :=
  let p := {| userId := uid; iat := clockTimestamp now;
              exp := (clockTimestamp now + expiresIn)%Z |} in
  JWS p (signature_of secret p).

(** Modelled from the spec: the verification the missing
    middleware/auth.js performs (section 4.2): structural validity,
    signature authenticity, and that the current time is before the
    embedded expiration. *)
Definition verify (now : Z) (tok : Token) (secret : string)
  : VerifyError + Payload :=
  match tok with
  | Malformed _ => inl InvalidToken
  | JWS p sig =>
      if negb (String.eqb sig (signature_of secret p)) then inl InvalidToken
      else if (clockTimestamp now <? exp p)%Z then inr p
      else inl ExpiredToken
  end.
End Jwt.
End jwt.

(** ** models/Book.js *)

Module Book.
Record t : Type := {
  title : string;
  author : string;
  description : option string;
  genre : option string;
  year : option Q;
  price : option Q;
  available : option bool;
  addedBy : ObjectId;
  createdAt : Z;
  updatedAt : Z
}.

(** A book whose [addedBy] went through
    [populate("addedBy", "username email")]: the owner's [_id],
    username and email, or null when no such user is stored. *)
Record populated : Type := {
  book : Doc t;
  owner : option (ObjectId * string * string)
}.

Definition populate (us : gmap ObjectId User.t) (b : Doc t) : populated :=
  {| book := b;
     owner := match us !! addedBy (doc b) with
              | Some u => Some (addedBy (doc b), User.username u, User.email u)
              | None => None
              end |}.

Definition set_title (x : string) (b : t) : t :=
  {| title := x; author := author b; description := description b;
     genre := genre b; year := year b; price := price b;
     available := available b; addedBy := addedBy b;
     createdAt := createdAt b; updatedAt := updatedAt b |}.
Definition set_author (x : string) (b : t) : t :=
  {| title := title b; author := x; description := description b;
     genre := genre b; year := year b; price := price b;
     available := available b; addedBy := addedBy b;
     createdAt := createdAt b; updatedAt := updatedAt b |}.
Definition set_description (x : option string) (b : t) : t :=
  {| title := title b; author := author b; description := x;
     genre := genre b; year := year b; price := price b;
     available := available b; addedBy := addedBy b;
     createdAt := createdAt b; updatedAt := updatedAt b |}.
Definition set_genre (x : option string) (b : t) : t :=
  {| title := title b; author := author b; description := description b;
     genre := x; year := year b; price := price b;
     available := available b; addedBy := addedBy b;
     createdAt := createdAt b; updatedAt := updatedAt b |}.
Definition set_year (x : option Q) (b : t) : t :=
  {| title := title b; author := author b; description := description b;
     genre := genre b; year := x; price := price b;
     available := available b; addedBy := addedBy b;
     createdAt := createdAt b; updatedAt := updatedAt b |}.
Definition set_price (x : option Q) (b : t) : t :=
  {| title := title b; author := author b; description := description b;
     genre := genre b; year := year b; price := x;
     available := available b; addedBy := addedBy b;
     createdAt := createdAt b; updatedAt := updatedAt b |}.
Definition set_available (x : option bool) (b : t) : t :=
  {| title := title b; author := author b; description := description b;
     genre := genre b; year := year b; price := price b;
     available := x; addedBy := addedBy b;
     createdAt := createdAt b; updatedAt := updatedAt b |}.
Definition set_addedBy (x : ObjectId) (b : t) : t :=
  {| title := title b; author := author b; description := description b;
     genre := genre b; year := year b; price := price b;
     available := available b; addedBy := x;
     createdAt := createdAt b; updatedAt := updatedAt b |}.
Definition set_updatedAt (x : Z) (b : t) : t :=
  {| title := title b; author := author b; description := description b;
     genre := genre b; year := year b; price := price b;
     available := available b; addedBy := addedBy b;
     createdAt := createdAt b; updatedAt := x |}.

Definition paths (b : t) : BookPaths :=
  (title b, author b, description b, genre b, year b, price b, available b,
   addedBy b).

Definition withPaths (p : BookPaths) (b : t) : t :=
  let '(ti, au, de, ge, ye, pr, av, ab) := p in
  {| title := ti; author := au; description := de; genre := ge;
     year := ye; price := pr; available := av; addedBy := ab;
     createdAt := createdAt b; updatedAt := updatedAt b |}.

Section Model.
Context `{Platform}.

(** The schema, path by path: the cast, the [trim] setter and the
    validators ([required], [maxlength], [min], [max]). *)
Definition nonEmpty (s : string) : bool := negb (String.eqb s "").

Definition titlePath (v : JValue) : Outcome string :=
  s ← required (castString v);
  s' ← validate nonEmpty (trim s);
  validate (maxlength 200) s'.

Definition authorPath (v : JValue) : Outcome string :=
  s ← required (castString v);
  s' ← validate nonEmpty (trim s);
  validate (maxlength 100) s'.

Definition descriptionPath (v : JValue) : Outcome (option string) :=
  s ← nullable (castString v);
  validateOpt (maxlength 1000) (trim <$> s).

Definition genrePath (v : JValue) : Outcome (option string) :=
  s ← nullable (castString v);
  validateOpt (maxlength 50) (trim <$> s).

Definition yearPath (env : Env) (v : JValue) : Outcome (option Q) :=
  n ← nullable (castNumber v);
  validateOpt (fun y => Qle_bool (inject_Z 1000) y
                        && Qle_bool y (inject_Z (currentYear env))) n.

Definition pricePath (v : JValue) : Outcome (option Q) :=
  n ← nullable (castNumber v);
  validateOpt (fun p => Qle_bool (inject_Z 0) p) n.

Definition availablePath (v : JValue) : Outcome (option bool) :=
  nullable (castBoolean v).

Definition addedByPath (v : JValue) : Outcome ObjectId :=
  required (castObjectId v).

(** [Book.findById(id)] with the id as it comes in [req.params]. *)
Definition findByParam (id : string) (m : gmap ObjectId t)
  : Outcome (option (Doc t)) :=
  o ← required (castObjectId (JStr id));
  Returns (findById o m).

Definition setPath {T} (upd : gmap string JValue) (k : string)
    (cast : JValue -> Outcome T) (set : T -> t -> t) (b : t) : Outcome t :=
  match upd !! k with
  | None => Returns b
  | Some v => x ← cast v; Returns (set x b)
  end.

(** [_id] cannot change: an update that names another [_id] is
    refused by the store. *)
Definition checkId (upd : gmap string JValue) (id : ObjectId)
  : Outcome unit :=
  match upd !! "_id" with
  | None => Returns tt
  | Some v =>
      o ← required (castObjectId v);
      if String.eqb o id then Returns tt else Throws ImmutableField
  end.

(** The [$set] an update object without operators amounts to under the
    schema: every schema path the object names is cast, validated and
    set; paths outside the schema are dropped (strict mode), and so are
    the two timestamps, which the store keeps itself. *)
Definition setPaths (env : Env) (upd : gmap string JValue) (b : t)
  : Outcome t :=
  b1 ← setPath upd "title" titlePath set_title b;
  b2 ← setPath upd "author" authorPath set_author b1;
  b3 ← setPath upd "description" descriptionPath set_description b2;
  b4 ← setPath upd "genre" genrePath set_genre b3;
  b5 ← setPath upd "year" (yearPath env) set_year b4;
  b6 ← setPath upd "price" pricePath set_price b5;
  b7 ← setPath upd "available" availablePath set_available b6;
  setPath upd "addedBy" addedByPath set_addedBy b7.

(** A key of an update object that starts with a dollar sign is an
    update operator. *)
Definition isOperator (k : string) : bool :=
  match k with
  | String c _ => Ascii.eqb c "$"%char
  | EmptyString => false
  end.

Definition hasOperator (upd : gmap string JValue) : bool :=
  existsb (fun kv => isOperator (fst kv)) (map_to_list upd).

(** An update object: one that uses an operator is left to the store,
    which never lets it reach [createdAt]; one that does not is the
    [$set] of its keys. *)
Definition applyUpdate (env : Env) (upd : gmap string JValue) (b : t)
  : Outcome t :=
  if hasOperator upd then
    p ← updateOperators upd (paths b);
    Returns (withPaths p b)
  else setPaths env upd b.

(** [Book.findByIdAndUpdate(id, upd, { new: true, runValidators: true })]:
    the document after the update, or null when there is none. *)
Definition findByIdAndUpdate (env : Env) (id : string)
    (upd : gmap string JValue) (m : gmap ObjectId t)
  : Outcome (option (Doc t) * gmap ObjectId t) :=
  o ← required (castObjectId (JStr id));
  _ ← checkId upd o;
  match m !! o with
  | None =>
      _ ← applyUpdate env upd
            {| title := ""; author := ""; description := None;
               genre := None; year := None; price := None;
               available := None; addedBy := ""; createdAt := 0;
               updatedAt := 0 |};
      Returns (None, m)
  | Some b =>
      b' ← applyUpdate env upd b;
      let b'' := set_updatedAt (Date_now env) b' in
      Returns (Some {| _id := o; doc := b'' |}, <[o := b'']> m)
  end.

(** [Book.findByIdAndDelete(id)]. *)
Definition findByParamAndDelete (id : string) (m : gmap ObjectId t)
  : Outcome (option (Doc t) * gmap ObjectId t) :=
  o ← required (castObjectId (JStr id));
  Returns (findByIdAndDelete o m).

(** [new Book(data).save()]: [available] defaults to true, the [_id]
    is the one in [data] when there is one, and so is [createdAt]; the
    timestamps of the schema set [createdAt] to the time of the save when
    the document has none, and [updatedAt] of a new document to its
    [createdAt]. *)
Definition create (env : Env) (data : gmap string JValue)
    (m : gmap ObjectId t) : Outcome (Doc t * gmap ObjectId t) :=
  ti ← titlePath (prop data "title");
  au ← authorPath (prop data "author");
  de ← descriptionPath (prop data "description");
  ge ← genrePath (prop data "genre");
  ye ← yearPath env (prop data "year");
  pr ← pricePath (prop data "price");
  av ← match data !! "available" with
       | None => Returns (Some true)
       | Some v => availablePath v
       end;
  ab ← addedByPath (prop data "addedBy");
  id ← match data !! "_id" with
       | None => Returns (newObjectId env)
       | Some v => required (castObjectId v)
       end;
  ca ← nullable (castDate (prop data "createdAt"));
  let ts := default (Date_now env) ca in
  let b := {| title := ti; author := au; description := de; genre := ge;
              year := ye; price := pr; available := av; addedBy := ab;
              createdAt := ts; updatedAt := ts |} in
  match m !! id with
  | Some _ => Throws DuplicateKey
  | None => Returns ({| _id := id; doc := b |}, <[id := b]> m)
  end.

(** The filter of [GET /api/books]. *)
Record query : Type := {
  q_text : option string;      (* $text: { $search } *)
  q_genre : option string;
  q_available : option bool
}.

Definition satisfies (q : query) (b : t) : bool :=
  match q_text q with
  | Some s => textSearch s [title b; author b; default "" (description b)]
  | None => true
  end
  && match q_genre q with
     | Some g => match genre b with
                 | Some g' => String.eqb g g'
                 | None => false
                 end
     | None => true
     end
  && match q_available q with
     | Some a => match available b with
                 | Some a' => Bool.eqb a a'
                 | None => false
                 end
     | None => true
     end.

Definition newerFirst (x y : Doc t) : Prop :=
  (createdAt (doc y) <= createdAt (doc x))%Z.

#[local] Instance newerFirst_dec x y : Decision (newerFirst x y).
Proof. unfold newerFirst. apply _. Defined.

Definition matching (q : t -> bool) (m : gmap ObjectId t) : list (Doc t) :=
  hydrate <$> List.filter (fun kv => q (snd kv)) (map_to_list m).

(** [Book.find(q).sort({ createdAt: -1 }).skip(skip).limit(limit)]:
    a negative skip is refused by the store, a negative limit counts
    as its absolute value. *)
Definition find (q : t -> bool) (skip limit : Z) (m : gmap ObjectId t)
  : Outcome (list (Doc t)) :=
  if (skip <? 0)%Z then Throws BadCursor
  else Returns (take (Z.to_nat (Z.abs limit))
                     (drop (Z.to_nat skip)
                           (merge_sort newerFirst (matching q m)))).

Definition countDocuments (q : t -> bool) (m : gmap ObjectId t) : Z :=
  Z.of_nat (length (matching q m)).
End Model.
End Book.

(** ** Requests and responses *)

Inductive Authorization : Type :=
| Bearer (token : jwt.Token)
| OtherScheme (raw : string).

Record Request : Type := {
  authorization : option Authorization;   (* the Authorization header *)
  params_id : string;                     (* req.params.id *)
  query : gmap string string;             (* req.query, each parameter
                                             given once, as text *)
  body : gmap string JValue               (* req.body *)
}.

Record Pagination : Type := {
  page : Z;
  limit : Z;
  total : Z;
  pages : Z
}.

(** Why the authentication middleware refused a request. *)
Inductive AuthFailure : Type :=
| MissingCredentials
| BadToken (e : jwt.VerifyError)
| UnauthorizedAccess
| Forbidden.

(** The JSON documents the handlers send. *)
Inductive Json : Type :=
| Error_ (error : string)
| Errors_ (errors : list ValidationError)
| Denied_ (why : AuthFailure)
| Auth_ (message : string) (u : User.json) (token : jwt.Token)
| User_ (u : User.json)
| Profile_ (message : string) (u : User.json)
| Books_ (books : list Book.populated) (pagination : Pagination)
| Book_ (book : Book.populated)
| Saved_ (message : string) (book : option Book.populated)
| Message_ (message : string)
| Genres_ (genres : list string).

Record Response : Type := {
  status : Z;
  json : Json
}.

Definition send (code : Z) (j : Json) : Response :=
  {| status := code; json := j |}.

(** The two stores. *)
Record Db : Type := {
  users : gmap ObjectId User.t;
  books : gmap ObjectId Book.t
}.

Definition with_users (us : gmap ObjectId User.t) (db : Db) : Db :=
  {| users := us; books := books db |}.

Definition with_books (bs : gmap ObjectId Book.t) (db : Db) : Db :=
  {| users := users db; books := bs |}.

(** [process.env.JWT_SECRET || "your-secret-key"]. *)
Definition secretOrKey (env : Env) : string :=
  match JWT_SECRET env with
  | Some s => if String.eqb s "" then "your-secret-key" else s
  | None => "your-secret-key"
  end.

(** ** middleware/auth.js *)

Module Middleware.
Section Middleware.
Context `{Platform}.

(** Modelled from the spec: the [auth] middleware of the missing
    middleware/auth.js (section 4.4). It takes the bearer token of the
    Authorization header, verifies it, and resolves the user it names in
    the Credential Store; a token that names no stored user fails with
    [UnauthorizedAccess]. *)
Definition auth (env : Env) (req : Request) (us : gmap ObjectId User.t)
  : AuthFailure + Doc User.t :=
  match authorization req with
  | None | Some (OtherScheme _) => inl MissingCredentials
  | Some (Bearer tok) =>
      match jwt.verify (Date_now env) tok (secretOrKey env) with
      | inl e => inl (BadToken e)
      | inr p =>
          match findById (jwt.userId p) us with
          | None => inl UnauthorizedAccess
          | Some u => inr u
          end
      end
  end.

(** Modelled from the spec: the admin-only gate [adminAuth] of the
    missing middleware/auth.js (section 4.4), the predicate
    [role == admin] on the resolved identity. *)
Definition adminAuth (env : Env) (req : Request) (us : gmap ObjectId User.t)
  : AuthFailure + Doc User.t :=
  match auth env req us with
  | inl e => inl e
  | inr u =>
      if String.eqb (Role_toString (User.role (doc u))) "admin" then inr u
      else inl Forbidden
  end.

(** Modelled from the spec: the answer of the missing middleware to a
    request it refuses, 403 for [Forbidden] and 401 for the rest
    (section 7). *)
Definition deny (e : AuthFailure) : Response :=
  match e with
  | Forbidden => send 403 (Denied_ e)
  | _ => send 401 (Denied_ e)
  end.

(** Modelled from the spec: a route behind [auth] (section 4.4). The
    handler runs with [req.user] set to the resolved user, or the request
    is refused and nothing is touched. *)
Definition protected (env : Env)
    (handler : Doc User.t -> Request -> Db -> Response * Db)
    (req : Request) (db : Db) : Response * Db :=
  match auth env req (users db) with
  | inl e => (deny e, db)
  | inr u => handler u req db
  end.
End Middleware.
End Middleware.

(** ** routes/auth.js *)

Module AuthRoutes.
Section AuthRoutes.
Context `{Platform}.

(** [expiresIn: "24h"], in seconds. *)
Definition expiresIn : Z := 24 * 60 * 60.

Definition generateToken (env : Env) (userId : ObjectId) : jwt.Token :=
  jwt.sign (Date_now env) userId (secretOrKey env) expiresIn.

Definition registerChains : list ValidationChain :=
  [ body_ "username" false
      [ (isLength (Some 3%nat) (Some 30%nat),
         "Username must be between 3 and 30 characters");
        (matches "^[a-zA-Z0-9_]+$",
         "Username can only contain letters, numbers, and underscores") ];
    body_ "email" false [ (isEmail, "Please enter a valid email") ];
    body_ "password" false
      [ (isLength (Some 6%nat) None,
         "Password must be at least 6 characters long") ] ].

(** [POST /register]. The handler awaits the store twice, once to look
    for an existing user and once to save the new one; [others] is what
    the requests served in between do to the stores (nothing, when the
    request runs alone). *)
Definition register (env : Env) (others : Db -> Db) (req : Request) (db : Db)
  : Response * Db :=
  let errors := validationResult registerChains (body req) in
  if negb (isEmpty errors) then (send 400 (Errors_ errors), db)
  else
    let username := prop (body req) "username" in
    let email := prop (body req) "email" in
    let password := prop (body req) "password" in
    match User.findByEmailOrUsername email username (users db) with
    | Throws _ => (send 500 (Error_ "Registration failed"), db)
    | Returns (Some existingUser) =>
        (send 400 (Error_ "User with this email or username already exists"),
         db)
    | Returns None =>
        let db1 := others db in
        match User.create env username email password (users db1) with
        | Throws _ => (send 500 (Error_ "Registration failed"), db1)
        | Returns (u, us) =>
            let token := generateToken env (_id u) in
            (send 201 (Auth_ "User registered successfully"
                             (User.toJSON u) token),
             with_users us db1)
        end
    end.

Definition loginChains : list ValidationChain :=
  [ body_ "email" false [ (isEmail, "Please enter a valid email") ];
    body_ "password" false [ (notEmpty, "Password is required") ] ].

(** [POST /login]. *)
Definition login (env : Env) (req : Request) (db : Db) : Response * Db :=
  let errors := validationResult loginChains (body req) in
  if negb (isEmpty errors) then (send 400 (Errors_ errors), db)
  else
    let email := prop (body req) "email" in
    let password := prop (body req) "password" in
    match User.findByEmail email (users db) with
    | Throws _ => (send 500 (Error_ "Login failed"), db)
    | Returns None => (send 401 (Error_ "Invalid email or password"), db)
    | Returns (Some u) =>
        match User.comparePassword u password with
        | None => (send 500 (Error_ "Login failed"), db)
        | Some false => (send 401 (Error_ "Invalid email or password"), db)
        | Some true =>
            let token := generateToken env (_id u) in
            (send 200 (Auth_ "Login successful" (User.toJSON u) token), db)
        end
    end.

(** [GET /profile], behind [auth]. *)
Definition getProfile (requester : Doc User.t) (req : Request) (db : Db)
  : Response * Db :=
  (send 200 (User_ (User.toJSON requester)), db).

Definition profileChains : list ValidationChain :=
  [ body_ "username" true
      [ (isLength (Some 3%nat) (Some 30%nat),
         "Username must be between 3 and 30 characters") ];
    body_ "email" true [ (isEmail, "Please enter a valid email") ] ].

(** The [updates] object of [PUT /profile]. *)
Definition profileUpdates (b : gmap string JValue) : gmap string JValue :=
  let username := prop b "username" in
  let email := prop b "email" in
  let updates := ∅ in
  let updates := if truthy username then <["username" := username]> updates
                 else updates in
  let updates := if truthy email then <["email" := email]> updates
                 else updates in
  updates.

(** [PUT /profile], behind [auth]. *)
Definition putProfile (env : Env) (requester : Doc User.t) (req : Request)
    (db : Db) : Response * Db :=
  let errors := validationResult profileChains (body req) in
  if negb (isEmpty errors) then (send 400 (Errors_ errors), db)
  else
    let updates := profileUpdates (body req) in
    match User.findByIdAndUpdate (Date_now env) (_id requester) updates
                                 (users db) with
    | Throws _ => (send 500 (Error_ "Failed to update profile"), db)
    | Returns (None, us) =>
        (* user.toJSON() on null *)
        (send 500 (Error_ "Failed to update profile"), with_users us db)
    | Returns (Some u, us) =>
        (send 200 (Profile_ "Profile updated successfully" (User.toJSON u)),
         with_users us db)
    end.
End AuthRoutes.
End AuthRoutes.

(** ** routes/books.js *)

Module BookRoutes.
Section BookRoutes.
Context `{Platform}.

(** [parseInt(x) || d]: NaN and 0 both give the default. *)
Definition parseIntOr (x : option string) (d : Z) : Z :=
  match parseInt x with
  | Some n => if (n =? 0)%Z then d else n
  | None => d
  end.

(** [Math.ceil(total / limit)], [limit] not zero. *)
Definition ceilDiv (total limit : Z) : Z := (- ((- total) / limit))%Z.

(** The [query] object [GET /] builds from [req.query]. *)
Definition listQuery (q : gmap string string) : Book.query :=
  let search := default "" (q !! "search") in
  let genre := default "" (q !! "genre") in
  let available := q !! "available" in
  {| Book.q_text := if String.eqb search "" then None else Some search;
     Book.q_genre := if String.eqb genre "" then None else Some genre;
     Book.q_available := (fun a => String.eqb a "true") <$> available |}.

Definition paginated (db : Db) (q : Book.t -> bool) (page limit : Z)
  : Outcome Json :=
  let skip := ((page - 1) * limit)%Z in
  found ← Book.find q skip limit (books db);
  let total := Book.countDocuments q (books db) in
  Returns (Books_ (Book.populate (users db) <$> found)
                  {| page := page; limit := limit; total := total;
                     pages := ceilDiv total limit |}).

(** [GET /]: a page of books, no middleware before the handler. *)
Definition getAll (req : Request) (db : Db) : Response * Db :=
  let page := parseIntOr (query req !! "page") 1 in
  let limit := parseIntOr (query req !! "limit") 10 in
  match paginated db (Book.satisfies (listQuery (query req))) page limit with
  | Throws _ => (send 500 (Error_ "Failed to fetch books"), db)
  | Returns j => (send 200 j, db)
  end.

(** [GET /:id]: one book, no middleware before the handler. *)
Definition getById (req : Request) (db : Db) : Response * Db :=
  match Book.findByParam (params_id req) (books db) with
  | Throws _ => (send 500 (Error_ "Failed to fetch book"), db)
  | Returns None => (send 404 (Error_ "Book not found"), db)
  | Returns (Some b) => (send 200 (Book_ (Book.populate (users db) b)), db)
  end.

Definition createChains (env : Env) : list ValidationChain :=
  [ body_ "title" false
      [ (notEmpty, "Title is required");
        (isLength None (Some 200%nat),
         "Title must be less than 200 characters") ];
    body_ "author" false
      [ (notEmpty, "Author is required");
        (isLength None (Some 100%nat),
         "Author must be less than 100 characters") ];
    body_ "description" true
      [ (isLength None (Some 1000%nat),
         "Description must be less than 1000 characters") ];
    body_ "genre" true
      [ (isLength None (Some 50%nat),
         "Genre must be less than 50 characters") ];
    body_ "year" true
      [ (isInt 1000 (currentYear env), "Year must be a valid year") ];
    body_ "price" true
      [ (isFloat (inject_Z 0), "Price must be a non-negative number") ];
    body_ "available" true
      [ (isBoolean, "Available must be a boolean value") ] ].

(** [POST /], behind [auth]: the owner of the new book is the requester,
    whatever the body says. *)
Definition post (env : Env) (requester : Doc User.t) (req : Request) (db : Db)
  : Response * Db :=
  let errors := validationResult (createChains env) (body req) in
  if negb (isEmpty errors) then (send 400 (Errors_ errors), db)
  else
    let bookData := <["addedBy" := JObjectId (_id requester)]> (body req) in
    match Book.create env bookData (books db) with
    | Throws _ => (send 500 (Error_ "Failed to create book"), db)
    | Returns (b, bs) =>
        let populatedBook := Book.populate (users db) <$> findById (_id b) bs in
        (send 201 (Saved_ "Book created successfully" populatedBook),
         with_books bs db)
    end.

Definition updateChains (env : Env) : list ValidationChain :=
  [ body_ "title" true
      [ (isLength None (Some 200%nat),
         "Title must be less than 200 characters") ];
    body_ "author" true
      [ (isLength None (Some 100%nat),
         "Author must be less than 100 characters") ];
    body_ "description" true
      [ (isLength None (Some 1000%nat),
         "Description must be less than 1000 characters") ];
    body_ "genre" true
      [ (isLength None (Some 50%nat),
         "Genre must be less than 50 characters") ];
    body_ "year" true
      [ (isInt 1000 (currentYear env), "Year must be a valid year") ];
    body_ "price" true
      [ (isFloat (inject_Z 0), "Price must be a non-negative number") ];
    body_ "available" true
      [ (isBoolean, "Available must be a boolean value") ] ].

(** The test both [PUT /:id] and [DELETE /:id] make before they refuse:
    [book.addedBy.toString() !== req.user._id.toString() &&
     req.user.role !== "admin"]. *)
Definition notOwnerNorAdmin (b : Doc Book.t) (requester : Doc User.t) : bool :=
  negb (String.eqb (ObjectId_toString (Book.addedBy (doc b)))
                   (ObjectId_toString (_id requester)))
  && negb (String.eqb (Role_toString (User.role (doc requester))) "admin").

(** The rule in the words of the contract: the requester is the owner of
    the book or has the admin role. *)
Definition ownerOrAdmin (requester : Doc User.t) (b : Doc Book.t) : Prop :=
  _id requester = Book.addedBy (doc b) \/ User.role (doc requester) = admin.

(** [PUT /:id], behind [auth]. *)
Definition put (env : Env) (requester : Doc User.t) (req : Request) (db : Db)
  : Response * Db :=
  let errors := validationResult (updateChains env) (body req) in
  if negb (isEmpty errors) then (send 400 (Errors_ errors), db)
  else
    match Book.findByParam (params_id req) (books db) with
    | Throws _ => (send 500 (Error_ "Failed to update book"), db)
    | Returns None => (send 404 (Error_ "Book not found"), db)
    | Returns (Some b) =>
        if notOwnerNorAdmin b requester then
          (send 403
             (Error_ "Access denied. You can only update your own books."),
           db)
        else
          match Book.findByIdAndUpdate env (params_id req) (body req)
                                       (books db) with
          | Throws _ => (send 500 (Error_ "Failed to update book"), db)
          | Returns (updatedBook, bs) =>
              (send 200 (Saved_ "Book updated successfully"
                                (Book.populate (users db) <$> updatedBook)),
               with_books bs db)
          end
    end.

(** [DELETE /:id], behind [auth]. *)
Definition deleteById (requester : Doc User.t) (req : Request) (db : Db)
  : Response * Db :=
  match Book.findByParam (params_id req) (books db) with
  | Throws _ => (send 500 (Error_ "Failed to delete book"), db)
  | Returns None => (send 404 (Error_ "Book not found"), db)
  | Returns (Some b) =>
      if notOwnerNorAdmin b requester then
        (send 403
           (Error_ "Access denied. You can only delete your own books."),
         db)
      else
        match Book.findByParamAndDelete (params_id req) (books db) with
        | Throws _ => (send 500 (Error_ "Failed to delete book"), db)
        | Returns (_, bs) =>
            (send 200 (Message_ "Book deleted successfully"),
             with_books bs db)
        end
  end.

(** [GET /user/my-books], behind [auth]. *)
Definition myBooks (requester : Doc User.t) (req : Request) (db : Db)
  : Response * Db :=
  let page := parseIntOr (query req !! "page") 1 in
  let limit := parseIntOr (query req !! "limit") 10 in
  match paginated db
          (fun b => String.eqb (Book.addedBy b) (_id requester)) page limit with
  | Throws _ => (send 500 (Error_ "Failed to fetch user books"), db)
  | Returns j => (send 200 j, db)
  end.

(** [GET /genres/list]: the distinct genres, the empty ones dropped. *)
Definition genres (req : Request) (db : Db) : Response * Db :=
  let distinct := remove_dups (omap (fun kv => Book.genre (snd kv))
                                    (map_to_list (books db))) in
  (send 200
     (Genres_ (List.filter (fun g => negb (String.eqb g "")) distinct)),
   db).
End BookRoutes.
End BookRoutes.

(** ** server.js: the routes and the middleware in front of each *)

Inductive Route : Type :=
| POST_auth_register
| POST_auth_login
| GET_auth_profile
| PUT_auth_profile
| GET_books
| GET_books_id
| POST_books
| PUT_books_id
| DELETE_books_id
| GET_books_my_books
| GET_books_genres.

Section Server.
Context `{Platform}.

(** One request served on its own. *)
Definition serve (env : Env) (r : Route) (req : Request) (db : Db)
  : Response * Db :=
  match r with
  | POST_auth_register => AuthRoutes.register env (fun d => d) req db
  | POST_auth_login => AuthRoutes.login env req db
  | GET_auth_profile => Middleware.protected env AuthRoutes.getProfile req db
  | PUT_auth_profile =>
      Middleware.protected env (AuthRoutes.putProfile env) req db
  | GET_books => BookRoutes.getAll req db
  | GET_books_id => BookRoutes.getById req db
  | POST_books => Middleware.protected env (BookRoutes.post env) req db
  | PUT_books_id => Middleware.protected env (BookRoutes.put env) req db
  | DELETE_books_id => Middleware.protected env BookRoutes.deleteById req db
  | GET_books_my_books => Middleware.protected env BookRoutes.myBooks req db
  | GET_books_genres => BookRoutes.genres req db
  end.
End Server.

(** ** A platform to run the handlers on

    A small instance of the libraries, enough to evaluate the handlers on
    concrete requests: lengths are counted in characters, an email is a
    string with an at sign, a digest is the salt followed by the
    password, a signature is the secret followed by the payload. *)

Module Sample.
Definition isDigit (c : ascii) : bool :=
  let n := nat_of_ascii c in ((48 <=? n) && (n <=? 57))%nat.

Definition isWordChar (c : ascii) : bool :=
  let n := nat_of_ascii c in
  (isDigit c || (65 <=? n) && (n <=? 90) || (97 <=? n) && (n <=? 122)
   || (n =? 95))%nat.

Fixpoint allChars (p : ascii -> bool) (s : string) : bool :=
  match s with
  | EmptyString => true
  | String c r => p c && allChars p r
  end.

Fixpoint anyChar (p : ascii -> bool) (s : string) : bool :=
  match s with
  | EmptyString => false
  | String c r => p c || anyChar p r
  end.

Fixpoint digitsFrom (acc : Z) (s : string) : Z :=
  match s with
  | EmptyString => acc
  | String c r => digitsFrom (10 * acc + Z.of_nat (nat_of_ascii c - 48)) r
  end.

Definition decimal (s : string) : option Z :=
  if negb (String.eqb s "") && allChars isDigit s then Some (digitsFrom 0 s)
  else None.

Definition stringOf (v : JValue) : string :=
  match v with
  | JStr s => s
  | JObjectId o => o
  | JBool true => "true"
  | JBool false => "false"
  | _ => ""
  end.

Definition check (v : Validator) (s : string) : bool :=
  match v with
  | isLength mn mx =>
      (default 0%nat mn <=? String.length s)%nat
      && match mx with
         | Some m => (String.length s <=? m)%nat
         | None => true
         end
  | matches _ => negb (String.eqb s "") && allChars isWordChar s
  | isEmail => anyChar (fun c => (nat_of_ascii c =? 64)%nat) s
  | notEmpty => negb (String.eqb s "")
  | isInt lo hi =>
      match decimal s with
      | Some n => (lo <=? n)%Z && (n <=? hi)%Z
      | None => false
      end
  | isFloat _ =>
      match decimal s with
      | Some _ => true
      | None => false
      end
  | isBoolean => String.eqb s "true" || String.eqb s "false"
  end.

Definition digest (salt pw : string) : string := salt ++ "$" ++ pw.

Fixpoint dropSalt (d : string) : string :=
  match d with
  | EmptyString => EmptyString
  | String c r => if (nat_of_ascii c =? 36)%nat then r else dropSalt r
  end.

Definition compare (candidate : JValue) (d : string) : option bool :=
  match candidate with
  | JStr s => Some (String.eqb s (dropSalt d))
  | _ => None
  end.

Fixpoint dropSpaces (cs : list ascii) : list ascii :=
  match cs with
  | c :: r => if (nat_of_ascii c =? 32)%nat then dropSpaces r else cs
  | [] => []
  end.

Definition strip (s : string) : string :=
  string_of_list_ascii
    (rev (dropSpaces (rev (dropSpaces (list_ascii_of_string s))))).

Definition mac (secret : string) (p : ObjectId * Z * Z) : string :=
  secret ++ "." ++ fst (fst p) ++ "." ++ pretty (snd (fst p)) ++ "."
         ++ pretty (snd p).

(** A number of milliseconds is the only date the sample reads. *)
Definition date (v : JValue) : Cast Z :=
  match v with
  | JNum n => Casted (Qnum n ÷ Z.pos (Qden n))%Z
  | _ => CastError
  end.

(** [{ $inc: { year: n } }] is the only update with operators the
    sample store carries out: it adds [n] to the year, validators
    unasked, and sets a missing year to [n]. *)
Definition operators (upd : gmap string JValue) (p : BookPaths)
  : Outcome BookPaths :=
  match map_to_list upd with
  | [("$inc", JObj [("year", JNum n)])] =>
      let '(ti, au, de, ge, ye, pr, av, ab) := p in
      Returns (ti, au, de, ge,
               Some (match ye with Some y => Qred (y + n) | None => n end),
               pr, av, ab)
  | _ => Throws CastFailure
  end.

Definition platform : Platform := {|
  toString := stringOf;
  validator_js := check;
  castString_other := fun _ => CastError;
  castNumber_other := fun _ => CastError;
  castBoolean_other := fun _ => CastError;
  castObjectId_other := fun _ => CastError;
  castDate_other := date;
  updateOperators := operators;
  trim := strip;
  bcrypt_hash := digest;
  bcrypt_compare := compare;
  hs256 := mac;
  parseInt := fun x => match x with Some s => decimal s | None => None end;
  textSearch := fun s fields => existsb (String.eqb s) fields
|}.





Definition env (now : Z) (id : ObjectId) : Env :=
  {| Date_now := now; JWT_SECRET := None; currentYear := 2025;
     newObjectId := id; genSalt := "salt" |}.

Definition alice_id : ObjectId := "aaaaaaaaaaaaaaaaaaaaaaaa".
Definition bob_id : ObjectId := "bbbbbbbbbbbbbbbbbbbbbbbb".
Definition root_id : ObjectId := "cccccccccccccccccccccccc".
Definition dune_id : ObjectId := "dddddddddddddddddddddddd".

Definition account (name : string) (r : Role) : User.t :=
  {| User.username := name; User.email := name ++ "@x.com";
     User.password := digest "salt" "secret1"; User.role := r;
     User.createdAt := 0; User.updatedAt := 0 |}.

Definition alice : Doc User.t := {| _id := alice_id; doc := account "alice" user |}.
Definition bob : Doc User.t := {| _id := bob_id; doc := account "bob" user |}.
Definition root : Doc User.t := {| _id := root_id; doc := account "root" admin |}.

Definition dune : Book.t :=
  {| Book.title := "Dune"; Book.author := "Frank Herbert";
     Book.description := None; Book.genre := Some "Science fiction";
     Book.year := Some (inject_Z 1965); Book.price := None;
     Book.available := Some true; Book.addedBy := alice_id;
     Book.createdAt := 0; Book.updatedAt := 0 |}.

(** Alice, Bob and an administrator; Alice owns the one book. *)
Definition db : Db :=
  {| users := <[alice_id := doc alice]>
                (<[bob_id := doc bob]> (<[root_id := doc root]> ∅));
     books := <[dune_id := dune]> ∅ |}.

(** A title of 201 characters. *)
Definition longTitle : string := string_of_list_ascii (repeat "a"%char 201).

Definition carol_id : ObjectId := "eeeeeeeeeeeeeeeeeeeeeeee".
Definition rival_id : ObjectId := "ffffffffffffffffffffffff".

(** A registration for the username carol. *)
Definition carolBody : gmap string JValue :=
  <["username" := JStr "carol"]>
    (<["email" := JStr "carol@x.com"]> {["password" := JStr "secret1"]}).

(** Another registration for carol, saved while the first one waits
    between its lookup and its save. *)
Definition rival (d : Db) : Db :=
  with_users (<[rival_id := account "carol" user]> (users d)) d.


Definition nobody : Db := {| users := ∅; books := ∅ |}.

Definition loginBody (pw : string) : gmap string JValue :=
  <["email" := JStr "alice@x.com"]> {["password" := JStr pw]}.

(** The moment a token is issued, a moment the same day, and a moment
    more than 24 hours later. *)
Definition issued : Env := env 1000 "".
Definition today : Env := env 5000 "".
Definition tomorrow : Env := env 86401001 "".

(** The Authorization header of a request that carries the token issued
    for a user. *)
Definition bearer (id : ObjectId) : option Authorization :=
  Some (Bearer (AuthRoutes.generateToken (H := platform) issued id)).

Definition asAlice : option Authorization := bearer alice_id.

(** The registration of the first end-to-end scenario. *)
Definition aliceBody : gmap string JValue :=
  <["username" := JStr "alice"]>
    (<["email" := JStr "alice@x.com"]> {["password" := JStr "secret1"]}).

Definition request (auth : option Authorization) (id : string)
    (b : gmap string JValue) : Request :=
  {| authorization := auth; params_id := id; query := ∅; body := b |}.



(** An update that asks the store to add 1000 to the year of a book. *)
Definition incYear : gmap string JValue :=
  {["$inc" := JObj [("year", JNum (inject_Z 1000))]]}.
End Sample.

(** ** What the stores are meant to keep *)

(** The bounds models/Book.js puts on the paths of a book: a title and an
    author that are not empty and at most 200 and 100 characters, a
    description of at most 1000, a genre of at most 50, a year between
    1000 and the current one, a price that is not negative. *)
Definition conforms (env : Env) (b : Book.t) : bool :=
  negb (String.eqb (Book.title b) "") && maxlength 200 (Book.title b)
  && negb (String.eqb (Book.author b) "") && maxlength 100 (Book.author b)
  && match Book.description b with
     | Some d => maxlength 1000 d
     | None => true
     end
  && match Book.genre b with
     | Some g => maxlength 50 g
     | None => true
     end
  && match Book.year b with
     | Some y => Qle_bool (inject_Z 1000) y
                 && Qle_bool y (inject_Z (currentYear env))
     | None => true
     end
  && match Book.price b with
     | Some p => Qle_bool (inject_Z 0) p
     | None => true
     end.

(** The unique indexes mongo-init.js creates on the users collection: no
    two records share a username or an email. *)
Definition uniqueUsers (m : gmap ObjectId User.t) : Prop :=
  forall (k1 k2 : ObjectId) (u1 u2 : User.t),
    m !! k1 = Some u1 -> m !! k2 = Some u2 ->
    User.username u1 = User.username u2 \/ User.email u1 = User.email u2 ->
    k1 = k2.

(** ** mongo-sample-book.js: the script that seeds the database *)

Module Seed.
(** What one [insertOne] of the script draws: the [_id] of the document
    and the two readings of the clock for its timestamps. *)
Record Fresh : Type := {
  fresh_id : ObjectId;
  fresh_createdAt : Z;
  fresh_updatedAt : Z
}.

(** One entry of [sampleBooks]. *)
Record Entry : Type := {
  s_title : string;
  s_author : string;
  s_description : string;
  s_genre : string;
  s_year : Z;
  s_price : Q
}.

Definition sampleBooks : list Entry :=
  [ {| s_title := "To Kill a Mockingbird"; s_author := "Harper Lee";
       s_description := "A novel about the serious issues of rape and racial inequality, told through the eyes of young Scout Finch in the Deep South.";
       s_genre := "Classic"; s_year := 1960; s_price := 1299 # 100 |};
    {| s_title := "1984"; s_author := "George Orwell";
       s_description := "A dystopian novel about totalitarianism, surveillance, and the manipulation of truth in a futuristic society.";
       s_genre := "Dystopian"; s_year := 1949; s_price := 1199 # 100 |};
    {| s_title := "The Great Gatsby"; s_author := "F. Scott Fitzgerald";
       s_description := "A story of the fabulously wealthy Jay Gatsby and his love for the beautiful Daisy Buchanan.";
       s_genre := "Classic"; s_year := 1925; s_price := 1099 # 100 |};
    {| s_title := "Pride and Prejudice"; s_author := "Jane Austen";
       s_description := "A romantic novel of manners that follows the emotional development of Elizabeth Bennet.";
       s_genre := "Romance"; s_year := 1813; s_price := 999 # 100 |};
    {| s_title := "The Hobbit"; s_author := "J.R.R. Tolkien";
       s_description := "A fantasy novel about Bilbo Baggins, a hobbit who embarks on a quest to reclaim the Lonely Mountain.";
       s_genre := "Fantasy"; s_year := 1937; s_price := 1499 # 100 |};
    {| s_title := "The Catcher in the Rye"; s_author := "J.D. Salinger";
       s_description := "A novel about teenage alienation and loss of innocence in post-World War II America.";
       s_genre := "Coming-of-age"; s_year := 1951; s_price := 1199 # 100 |};
    {| s_title := "Lord of the Flies"; s_author := "William Golding";
       s_description := "A novel about a group of British boys stranded on an uninhabited island and their disastrous attempt to govern themselves.";
       s_genre := "Allegory"; s_year := 1954; s_price := 1099 # 100 |};
    {| s_title := "Animal Farm"; s_author := "George Orwell";
       s_description := "An allegorical novella about a group of farm animals who rebel against their human farmer.";
       s_genre := "Allegory"; s_year := 1945; s_price := 899 # 100 |};
    {| s_title := "The Alchemist"; s_author := "Paulo Coelho";
       s_description := "A novel about a young Andalusian shepherd who dreams of finding a worldly treasure.";
       s_genre := "Adventure"; s_year := 1988; s_price := 1399 # 100 |};
    {| s_title := "Brave New World"; s_author := "Aldous Huxley";
       s_description := "A dystopian novel about a futuristic society where people are genetically bred and pharmaceutically anesthetized.";
       s_genre := "Dystopian"; s_year := 1932; s_price := 1299 # 100 |} ].

Definition adminEmail : string := "admin@cis.kku.ac.th".

(** The user the script inserts. *)
Definition adminUser (f : Fresh) : User.t :=
  {| User.username := "admin"; User.email := adminEmail;
     User.password :=
       "$2a$10$7QJ6QwQwQwQwQwQwQwQwQeQwQwQwQwQwQwQwQwQwQwQwQwQwQwQw";
     User.role := admin;
     User.createdAt := fresh_createdAt f;
     User.updatedAt := fresh_updatedAt f |}.

(** [{ ...book, addedBy: userId, createdAt: new Date(), updatedAt: new Date() }]. *)
Definition bookOf (userId : ObjectId) (s : Entry) (f : Fresh) : Book.t :=
  {| Book.title := s_title s; Book.author := s_author s;
     Book.description := Some (s_description s);
     Book.genre := Some (s_genre s);
     Book.year := Some (inject_Z (s_year s));
     Book.price := Some (s_price s);
     Book.available := Some true;
     Book.addedBy := userId;
     Book.createdAt := fresh_createdAt f;
     Book.updatedAt := fresh_updatedAt f |}.

(** [db.users.countDocuments({ email }) === 0] fails. *)
Definition hasEmail (e : string) (m : gmap ObjectId User.t) : bool :=
  existsb (fun kv => String.eqb (User.email (snd kv)) e) (map_to_list m).

(** [db.books.countDocuments({ title }) === 0] fails. *)
Definition hasTitle (t : string) (m : gmap ObjectId Book.t) : bool :=
  existsb (fun kv => String.eqb (Book.title (snd kv)) t) (map_to_list m).

(** [db.users.insertOne]: the store refuses an [_id], a username or an
    email that is taken. *)
Definition insertUser (id : ObjectId) (u : User.t) (m : gmap ObjectId User.t)
  : Outcome (gmap ObjectId User.t) :=
  match m !! id with
  | Some _ => Throws DuplicateKey
  | None => if User.taken id u m then Throws DuplicateKey
            else Returns (<[id := u]> m)
  end.

(** [db.books.insertOne]. *)
Definition insertBook (id : ObjectId) (b : Book.t) (m : gmap ObjectId Book.t)
  : Outcome (gmap ObjectId Book.t) :=
  match m !! id with
  | Some _ => Throws DuplicateKey
  | None => Returns (<[id := b]> m)
  end.

(** [sampleBooks.forEach(...)]: each book whose title is not stored is
    inserted; the loop stops at the first insertion the store refuses.
    [draw i] is what the insertion of the book at position [i] draws. *)
Fixpoint seedBooks (userId : ObjectId) (draw : nat -> Fresh) (i : nat)
    (samples : list Entry) (m : gmap ObjectId Book.t)
  : gmap ObjectId Book.t * option StoreError :=
  match samples with
  | [] => (m, None)
  | s :: rest =>
      if hasTitle (s_title s) m then seedBooks userId draw (S i) rest m
      else
        match insertBook (fresh_id (draw i)) (bookOf userId s (draw i)) m with
        | Throws e => (m, Some e)
        | Returns m' => seedBooks userId draw (S i) rest m'
        end
  end.

(** The script: [me] is the id it generates for the user and the clock
    readings of that insertion. It returns the stores as it leaves them
    and the error it stopped on, if any. *)
Definition run (me : Fresh) (draw : nat -> Fresh) (db : Db)
  : Db * option StoreError :=
  let userId := fresh_id me in
  let inserted :=
    if hasEmail adminEmail (users db) then Returns (users db)
    else insertUser userId (adminUser me) (users db) in
  match inserted with
  | Throws e => (db, Some e)
  | Returns us =>
      let '(bs, err) := seedBooks userId draw 0 sampleBooks (books db) in
      ({| users := us; books := bs |}, err)
  end.
End Seed.

(** ** More requests to run the handlers on *)

Module Cases.
(** Alice renames her book. *)
Definition rename : Request :=
  Sample.request None Sample.dune_id {["title" := JStr "Dune Messiah"]}.

Definition renamed : Book.t :=
  Book.set_updatedAt 5000 (Book.set_title "Dune Messiah" Sample.dune).

(** Alice adds a book. *)
Definition emma_id : ObjectId := "999999999999999999999999".

(** A body both [POST /] and [PUT /:id] take: a title and an author. *)
Definition retitle : Request :=
  Sample.request None Sample.dune_id
    (<["title" := JStr "Emma"]> {["author" := JStr "Jane Austen"]}).

Definition addEmma : Request :=
  Sample.request None ""
    (<["title" := JStr "Emma"]> {["author" := JStr "Jane Austen"]}).

Definition emma : Book.populated :=
  Book.populate (users Sample.db)
    {| _id := emma_id;
       doc := {| Book.title := "Emma"; Book.author := "Jane Austen";
                 Book.description := None; Book.genre := None;
                 Book.year := None; Book.price := None;
                 Book.available := Some true;
                 Book.addedBy := Sample.alice_id;
                 Book.createdAt := 5000; Book.updatedAt := 5000 |} |}.

Definition getEmma : Request := Sample.request None emma_id ∅.

(** The first page of the available books, and what it holds. *)
Definition available : Request :=
  {| authorization := None; params_id := "";
     query := {["available" := "true"]}; body := ∅ |}.

Definition firstPage : list Book.populated :=
  [Book.populate (users Sample.db)
     {| _id := Sample.dune_id; doc := Sample.dune |}].

Definition onePage : Pagination :=
  {| page := 1; limit := 10; total := 1; pages := 1 |}.

(** Carol registers, then logs in. *)
Definition registerCarol : Request := Sample.request None "" Sample.carolBody.

Definition loginCarol : Request :=
  Sample.request None ""
    (<["email" := JStr "carol@x.com"]> {["password" := JStr "secret1"]}).

(** Alice takes a new username; Alice asks for Bob's. *)
Definition becomeAlicia : Request :=
  Sample.request None "" {["username" := JStr "alicia"]}.

Definition becomeBob : Request :=
  Sample.request None "" {["username" := JStr "bob"]}.

(** Two runs of the seeding script and what they draw. *)
Definition me : Seed.Fresh :=
  {| Seed.fresh_id := "a00000000000000000000000";
     Seed.fresh_createdAt := 100; Seed.fresh_updatedAt := 101 |}.

Definition meAgain : Seed.Fresh :=
  {| Seed.fresh_id := "b00000000000000000000000";
     Seed.fresh_createdAt := 900; Seed.fresh_updatedAt := 901 |}.

Definition draw (i : nat) : Seed.Fresh :=
  {| Seed.fresh_id := "c0000000000000000000000" ++ pretty (Z.of_nat i);
     Seed.fresh_createdAt := 200 + Z.of_nat i;
     Seed.fresh_updatedAt := 200 + Z.of_nat i |}.

Definition drawAgain (i : nat) : Seed.Fresh :=
  {| Seed.fresh_id := "d0000000000000000000000" ++ pretty (Z.of_nat i);
     Seed.fresh_createdAt := 950 + Z.of_nat i;
     Seed.fresh_updatedAt := 950 + Z.of_nat i |}.

(** The stores after the script ran on empty ones, and the same stores
    with the books dropped. *)
Definition seeded : Db := fst (Seed.run me draw Sample.nobody).

Definition adminOnly : Db := {| users := users seeded; books := ∅ |}.
End Cases.

(** * Properties of the contract *)

(** ** Tokens *)

Section TokenProperties.
Context `{Platform}.

Lemma secretOrKey_same (env env' : Env) :
  JWT_SECRET env' = JWT_SECRET env -> secretOrKey env' = secretOrKey env.
Proof. unfold secretOrKey. intros ->. reflexivity. Qed.

Lemma verify_sign (now now' : Z) (uid : ObjectId) (secret : string) (ttl : Z) :
  (jwt.clockTimestamp now' < jwt.clockTimestamp now + ttl)%Z ->
  jwt.verify now' (jwt.sign now uid secret ttl) secret
  = inr {| jwt.userId := uid; jwt.iat := jwt.clockTimestamp now;
           jwt.exp := (jwt.clockTimestamp now + ttl)%Z |}.
Proof.
  intros Hlt. unfold jwt.verify, jwt.sign.
  rewrite String.eqb_refl. cbn [negb jwt.exp].
  apply Z.ltb_lt in Hlt. rewrite Hlt. reflexivity.
Qed.

Lemma verify_sign_late (now now' : Z) (uid : ObjectId) (secret : string)
    (ttl : Z) :
  (jwt.clockTimestamp now + ttl <= jwt.clockTimestamp now')%Z ->
  jwt.verify now' (jwt.sign now uid secret ttl) secret = inl jwt.ExpiredToken.
Proof.
  intros Hle. unfold jwt.verify, jwt.sign.
  rewrite String.eqb_refl. cbn [negb jwt.exp].
  apply Z.ltb_ge in Hle. rewrite Hle. reflexivity.
Qed.

(** A clock more than 24 hours of milliseconds ahead is at least 86400
    seconds ahead once both are floored to seconds. *)
Lemma clockTimestamp_day (t0 t : Z) :
  (t0 + 24 * 60 * 60 * 1000 < t)%Z ->
  (jwt.clockTimestamp t0 + 24 * 60 * 60 <= jwt.clockTimestamp t)%Z.
Proof.
  intros Hlt. unfold jwt.clockTimestamp.
  replace (t0 / 1000 + 24 * 60 * 60)%Z
    with ((t0 + 24 * 60 * 60 * 1000) / 1000)%Z.
  - apply Z.div_le_mono; lia.
  - replace (t0 + 24 * 60 * 60 * 1000)%Z with (t0 + 86400 * 1000)%Z by lia.
    rewrite Z.div_add by lia. lia.
Qed.

(** C4. A token issued for a user id carries that id, its issuance time
    and an expiration 24 hours later; verified under the same secret
    before that expiration, it yields the payload with that id. *)
Theorem token_round_trip (env env' : Env) (U : ObjectId) :
  JWT_SECRET env' = JWT_SECRET env ->
  (jwt.clockTimestamp (Date_now env')
   < jwt.clockTimestamp (Date_now env) + 24 * 60 * 60)%Z ->
  exists p sig,
    AuthRoutes.generateToken env U = jwt.JWS p sig
    /\ jwt.userId p = U
    /\ jwt.iat p = jwt.clockTimestamp (Date_now env)
    /\ jwt.exp p = (jwt.iat p + 24 * 60 * 60)%Z
    /\ jwt.verify (Date_now env') (AuthRoutes.generateToken env U)
                  (secretOrKey env') = inr p.
Proof.
  intros Hsecret Hbefore.
  unfold AuthRoutes.generateToken, AuthRoutes.expiresIn.
  rewrite (secretOrKey_same _ _ Hsecret).
  rewrite verify_sign by exact Hbefore.
  unfold jwt.sign. eexists. eexists.
  repeat split; reflexivity.
Qed.

(** C5. A token verified more than 24 hours after its issuance fails
    with [ExpiredToken]: neither a payload nor [InvalidToken]. *)
Theorem token_expiry (env env' : Env) (U : ObjectId) :
  JWT_SECRET env' = JWT_SECRET env ->
  (Date_now env + 24 * 60 * 60 * 1000 < Date_now env')%Z ->
  jwt.verify (Date_now env') (AuthRoutes.generateToken env U)
             (secretOrKey env') = inl jwt.ExpiredToken.
Proof.
  intros Hsecret Hlate.
  unfold AuthRoutes.generateToken, AuthRoutes.expiresIn.
  rewrite (secretOrKey_same _ _ Hsecret).
  apply verify_sign_late, clockTimestamp_day, Hlate.
Qed.

Lemma auth_unknown_user (env : Env) (req : Request) (tok : jwt.Token)
    (p : jwt.Payload) (us : gmap ObjectId User.t) :
  authorization req = Some (Bearer tok) ->
  jwt.verify (Date_now env) tok (secretOrKey env) = inr p ->
  us !! jwt.userId p = None ->
  Middleware.auth env req us = inl UnauthorizedAccess.
Proof.
  intros Hhdr Hver Hnone. unfold Middleware.auth, findById.
  rewrite Hhdr, Hver, Hnone. reflexivity.
Qed.

(** C7. A token issued for a user who has since been deleted from the
    Credential Store does not authenticate: presented unexpired and
    correctly signed, it fails with [UnauthorizedAccess], and a route
    behind the middleware answers without running its handler. The same
    holds of any token that verifies while no user has its id. *)
Theorem stale_account_rejected (env0 env : Env) (U : ObjectId) (req : Request)
    (db : Db) (handler : Doc User.t -> Request -> Db -> Response * Db) :
  JWT_SECRET env = JWT_SECRET env0 ->
  (jwt.clockTimestamp (Date_now env)
   < jwt.clockTimestamp (Date_now env0) + 24 * 60 * 60)%Z ->
  authorization req = Some (Bearer (AuthRoutes.generateToken env0 U)) ->
  let db' := with_users (delete U (users db)) db in
  Middleware.auth env req (users db') = inl UnauthorizedAccess
  /\ Middleware.protected env handler req db'
     = (send 401 (Denied_ UnauthorizedAccess), db')
  /\ forall (tok : jwt.Token) (p : jwt.Payload) (r : Request)
            (us : gmap ObjectId User.t),
       authorization r = Some (Bearer tok) ->
       jwt.verify (Date_now env) tok (secretOrKey env) = inr p ->
       us !! jwt.userId p = None ->
       Middleware.auth env r us = inl UnauthorizedAccess.
Proof.
  intros Hsecret Hbefore Hhdr db'.
  assert (Hauth : Middleware.auth env req (users db') = inl UnauthorizedAccess).
  { eapply auth_unknown_user; [exact Hhdr | |].
    - unfold AuthRoutes.generateToken, AuthRoutes.expiresIn.
      rewrite (secretOrKey_same _ _ Hsecret).
      apply verify_sign, Hbefore.
    - cbn. apply lookup_delete_eq. }
  split; [exact Hauth |]. split.
  - unfold Middleware.protected. rewrite Hauth. reflexivity.
  - intros tok p r us. apply auth_unknown_user.
Qed.
End TokenProperties.

(** ** Collections *)

Section CollectionProperties.
Context {F : Type}.

Lemma findOne_None (q : F -> bool) (m : gmap ObjectId F) :
  findOne q m = None ->
  forall (id : ObjectId) (f : F), m !! id = Some f -> q f = false.
Proof.
  unfold findOne. intros Hfind id f Hin.
  destruct (List.find _ _) eqn:Efind; [discriminate |].
  apply (find_none _ _ Efind (id, f)).
  apply list_elem_of_In, elem_of_map_to_list, Hin.
Qed.


Lemma findOne_Some (q : F -> bool) (m : gmap ObjectId F) (d : Doc F) :
  findOne q m = Some d -> m !! _id d = Some (doc d) /\ q (doc d) = true.
Proof.
  unfold findOne. intros Hfind.
  destruct (List.find _ _) as [[k f] |] eqn:Efind; [| discriminate].
  injection Hfind as <-. apply find_some in Efind as [Hin Hq].
  split; [| exact Hq].
  apply list_elem_of_In, elem_of_map_to_list in Hin. exact Hin.
Qed.

Lemma findById_Some (id : ObjectId) (m : gmap ObjectId F) (d : Doc F) :
  findById id m = Some d -> _id d = id /\ m !! id = Some (doc d).
Proof.
  unfold findById. destruct (m !! id); [| discriminate].
  intros [= <-]. split; reflexivity.
Qed.
End CollectionProperties.

(** ** Registration and login *)

Section AccountProperties.
Context `{Platform}.


(** Whatever makes the save throw, a duplicate key included, the catch
    block of the registration answers the same 500. *)
Lemma register_save_throws (env : Env) (others : Db -> Db) (req : Request)
    (db : Db) (e : StoreError) :
  validationResult AuthRoutes.registerChains (body req) = [] ->
  User.findByEmailOrUsername (prop (body req) "email")
                             (prop (body req) "username") (users db)
  = Returns None ->
  User.create env (prop (body req) "username") (prop (body req) "email")
              (prop (body req) "password") (users (others db)) = Throws e ->
  AuthRoutes.register env others req db
  = (send 500 (Error_ "Registration failed"), others db).
Proof.
  intros Hvalid Hnone Hsave. unfold AuthRoutes.register.
  rewrite Hvalid, Hnone, Hsave. reflexivity.
Qed.

End AccountProperties.

(** ** Profile update *)

Section ProfileProperties.
Context `{Platform}.

(** The [updates] object names no path but username and email. *)
Lemma profileUpdates_other (b : gmap string JValue) (k : string) :
  k <> "username" -> k <> "email" -> AuthRoutes.profileUpdates b !! k = None.
Proof.
  intros Hu He. unfold AuthRoutes.profileUpdates.
  destruct (truthy (prop b "username")), (truthy (prop b "email"));
    rewrite ?lookup_insert_ne by congruence; apply lookup_empty.
Qed.

Lemma setPath_username (upd : gmap string JValue) (u u' : User.t) :
  User.setPath upd "username" (fun v => required (castString v))
               User.set_username u = Returns u' ->
  User.sameCredentials u u'.
Proof.
  unfold User.setPath. destruct (upd !! "username") as [v |].
  - destruct (required (castString v)); cbn; intros [= <-].
    repeat split.
  - intros [= <-]. repeat split.
Qed.

Lemma setPath_email (upd : gmap string JValue) (u u' : User.t) :
  User.setPath upd "email" (fun v => required (castString v))
               User.set_email u = Returns u' ->
  User.sameCredentials u u'.
Proof.
  unfold User.setPath. destruct (upd !! "email") as [v |].
  - destruct (required (castString v)); cbn; intros [= <-].
    repeat split.
  - intros [= <-]. repeat split.
Qed.

Lemma applyUpdate_profile (b : gmap string JValue) (u u' : User.t) :
  User.applyUpdate (AuthRoutes.profileUpdates b) u = Returns u' ->
  User.sameCredentials u u'.
Proof.
  unfold User.applyUpdate.
  destruct (User.setPath _ "username" _ _ u) as [e | u1] eqn:E1;
    [discriminate |].
  cbn. destruct (User.setPath _ "email" _ _ u1) as [e | u2] eqn:E2;
    [discriminate |].
  cbn. unfold User.setPath at 1 2.
  rewrite !profileUpdates_other by discriminate. cbn.
  intros [= <-].
  apply setPath_username in E1 as (R1 & P1 & C1).
  apply setPath_email in E2 as (R2 & P2 & C2).
  repeat split; congruence.
Qed.

(** What [findByIdAndUpdate] with a profile's [updates] does to the
    collection: only the document at [id] can differ, and its role,
    password and creation time stay. *)
Lemma findByIdAndUpdate_profile (now : Z) (id : ObjectId)
    (b : gmap string JValue) (m m' : gmap ObjectId User.t)
    (r : option (Doc User.t)) :
  User.findByIdAndUpdate now id (AuthRoutes.profileUpdates b) m
  = Returns (r, m') ->
  (forall k, m !! k = None -> m' !! k = None)
  /\ (forall k u, m !! k = Some u ->
        exists u', m' !! k = Some u' /\ User.sameCredentials u u'
                   /\ (u' <> u -> k = id)).
Proof.
  unfold User.findByIdAndUpdate.
  destruct (m !! id) as [u0 |] eqn:Hid.
  - destruct (User.applyUpdate _ u0) as [e | u1] eqn:Happly; [discriminate |].
    cbn. destruct (User.taken _ _ _); [discriminate |].
    intros [= <- <-]. apply applyUpdate_profile in Happly as (R & P & C).
    split.
    + intros k Hk. destruct (decide (k = id)) as [-> | Hne]; [congruence |].
      rewrite lookup_insert_ne by congruence. exact Hk.
    + intros k u Hk. destruct (decide (k = id)) as [-> | Hne].
      * rewrite lookup_insert_eq. eexists. split; [reflexivity |].
        assert (u = u0) as -> by congruence.
        split; [repeat split; assumption | reflexivity].
      * rewrite lookup_insert_ne by congruence. exists u.
        split; [exact Hk |]. split; [repeat split | congruence].
  - destruct (User.applyUpdate _ _); [discriminate |]. cbn.
    intros [= <- <-]. split; [tauto |].
    intros k u Hk. exists u. split; [exact Hk |].
    split; [repeat split | congruence].
Qed.

(** C8. Whatever the request, [PUT /profile] leaves the books alone,
    creates and deletes no user, and keeps the role, the password digest
    and the identifier of every user; the one record it can change is
    that of the user the request authenticates as. *)
Theorem profile_update_frame (env : Env) (req : Request) (db : Db) :
  books (snd (serve env PUT_auth_profile req db)) = books db
  /\ (forall k, users db !! k = None ->
        users (snd (serve env PUT_auth_profile req db)) !! k = None)
  /\ (forall k u, users db !! k = Some u ->
        exists u',
          users (snd (serve env PUT_auth_profile req db)) !! k = Some u'
          /\ User.role u' = User.role u
          /\ User.password u' = User.password u
          /\ User.createdAt u' = User.createdAt u
          /\ (u' <> u ->
              exists requester,
                Middleware.auth env req (users db) = inr requester
                /\ _id requester = k)).
Proof.
  assert (Hsame : forall d : Db,
    d = db ->
    books d = books db
    /\ (forall k, users db !! k = None -> users d !! k = None)
    /\ (forall k u, users db !! k = Some u ->
          exists u', users d !! k = Some u'
            /\ User.role u' = User.role u
            /\ User.password u' = User.password u
            /\ User.createdAt u' = User.createdAt u
            /\ (u' <> u ->
                exists requester,
                  Middleware.auth env req (users db) = inr requester
                  /\ _id requester = k))).
  { intros d ->. split; [reflexivity |]. split; [tauto |].
    intros k u Hk. exists u. repeat split; try assumption. congruence. }
  cbn [serve]. unfold Middleware.protected.
  destruct (Middleware.auth env req (users db)) as [e | requester] eqn:Hauth.
  { apply Hsame. reflexivity. }
  unfold AuthRoutes.putProfile.
  destruct (isEmpty _); cbn [negb]; [| apply Hsame; reflexivity].
  destruct (User.findByIdAndUpdate _ _ _ _) as [e | [r m']] eqn:Hupd.
  { apply Hsame. reflexivity. }
  apply findByIdAndUpdate_profile in Hupd as [Hnone Hsome].
  assert (Hgoal :
    books (with_users m' db) = books db
    /\ (forall k, users db !! k = None -> users (with_users m' db) !! k = None)
    /\ (forall k u, users db !! k = Some u ->
          exists u', users (with_users m' db) !! k = Some u'
            /\ User.role u' = User.role u
            /\ User.password u' = User.password u
            /\ User.createdAt u' = User.createdAt u
            /\ (u' <> u ->
                exists requester0,
                  @inr AuthFailure _ requester = inr requester0
                  /\ _id requester0 = k))).
  { split; [reflexivity |]. split; [exact Hnone |].
    intros k u Hk. destruct (Hsome k u Hk) as (u' & Hk' & (R & P & C) & Hid).
    exists u'. repeat split; try assumption.
    intros Hne. exists requester. split; [reflexivity |].
    symmetry. apply Hid, Hne. }
  destruct r; exact Hgoal.
Qed.
End ProfileProperties.

(** ** Books *)

Section BookProperties.
Context `{Platform}.

(** C9. Listing a page of books and fetching one book need no identity:
    the answer is the same whatever the Authorization header (present or
    not) and the body, it is never 401 or 403, and the stores are left
    as they were. *)
Theorem book_reads_public (env : Env) (r : Route) (req req' : Request)
    (db : Db) :
  r = GET_books \/ r = GET_books_id ->
  params_id req' = params_id req ->
  query req' = query req ->
  serve env r req' db = serve env r req db
  /\ snd (serve env r req db) = db
  /\ status (fst (serve env r req db)) <> 401%Z
  /\ status (fst (serve env r req db)) <> 403%Z.
Proof.
  intros [-> | ->] Hid Hquery; cbn [serve].
  - unfold BookRoutes.getAll. rewrite Hquery.
    destruct (BookRoutes.paginated _ _ _ _); cbn; repeat split; discriminate.
  - unfold BookRoutes.getById. rewrite Hid.
    destruct (Book.findByParam _ _) as [e | [b |]]; cbn;
      repeat split; discriminate.
Qed.

Lemma notOwnerNorAdmin_false (b : Doc Book.t) (requester : Doc User.t) :
  BookRoutes.notOwnerNorAdmin b requester = false
  <-> BookRoutes.ownerOrAdmin requester b.
Proof.
  unfold BookRoutes.notOwnerNorAdmin, BookRoutes.ownerOrAdmin,
    ObjectId_toString.
  rewrite andb_false_iff, !negb_false_iff, !String.eqb_eq.
  split; intros [Ho | Ha].
  - left. congruence.
  - right. destruct (User.role (doc requester)); [discriminate | reflexivity].
  - left. congruence.
  - right. rewrite Ha. reflexivity.
Qed.

Lemma notOwnerNorAdmin_true (b : Doc Book.t) (requester : Doc User.t) :
  BookRoutes.notOwnerNorAdmin b requester = true
  <-> ~ BookRoutes.ownerOrAdmin requester b.
Proof.
  rewrite <- notOwnerNorAdmin_false.
  destruct (BookRoutes.notOwnerNorAdmin b requester); split; congruence.
Qed.

Lemma findByParam_Some (id : string) (m : gmap ObjectId Book.t)
    (b : Doc Book.t) :
  Book.findByParam id m = Returns (Some b) ->
  required (castObjectId (JStr id)) = Returns (_id b)
  /\ m !! _id b = Some (doc b).
Proof.
  unfold Book.findByParam.
  destruct (required (castObjectId (JStr id))) as [e | o]; [discriminate |].
  cbn. intros [= Hfind]. apply findById_Some in Hfind as [<- Hm].
  split; [reflexivity | exact Hm].
Qed.

(** C1, as amended. On an existing book, a delete request, and an update
    request whose body passes the validators of the route, is refused
    with 403 exactly when the requester is neither the owner nor an
    admin, and then nothing is modified; otherwise the update or the
    deletion goes to the store. *)
Theorem book_write_access (env : Env) (requester : Doc User.t) (req : Request)
    (db : Db) (b : Doc Book.t) :
  Book.findByParam (params_id req) (books db) = Returns (Some b) ->
  ((BookRoutes.ownerOrAdmin requester b
    <-> status (fst (BookRoutes.deleteById requester req db)) <> 403%Z)
   /\ (~ BookRoutes.ownerOrAdmin requester b ->
       BookRoutes.deleteById requester req db
       = (send 403
            (Error_ "Access denied. You can only delete your own books."),
          db))
   /\ (BookRoutes.ownerOrAdmin requester b ->
       BookRoutes.deleteById requester req db
       = (send 200 (Message_ "Book deleted successfully"),
          with_books (delete (_id b) (books db)) db)))
  /\ (validationResult (BookRoutes.updateChains env) (body req) = [] ->
      (BookRoutes.ownerOrAdmin requester b
       <-> status (fst (BookRoutes.put env requester req db)) <> 403%Z)
      /\ (~ BookRoutes.ownerOrAdmin requester b ->
          BookRoutes.put env requester req db
          = (send 403
               (Error_ "Access denied. You can only update your own books."),
             db))
      /\ (BookRoutes.ownerOrAdmin requester b ->
          BookRoutes.put env requester req db
          = match Book.findByIdAndUpdate env (params_id req) (body req)
                                         (books db) with
            | Throws _ => (send 500 (Error_ "Failed to update book"), db)
            | Returns (updatedBook, bs) =>
                (send 200 (Saved_ "Book updated successfully"
                                  (Book.populate (users db) <$> updatedBook)),
                 with_books bs db)
            end)).
Proof.
  intros Hfound.
  pose proof (findByParam_Some _ _ _ Hfound) as [Hcast Hstored].
  split.
  - unfold BookRoutes.deleteById, Book.findByParamAndDelete,
      findByIdAndDelete.
    rewrite Hfound, Hcast. cbn [mbind Outcome_bind].
    destruct (BookRoutes.notOwnerNorAdmin b requester) eqn:Hgate.
    + apply notOwnerNorAdmin_true in Hgate.
      cbn. repeat split; try tauto; intros; tauto.
    + apply notOwnerNorAdmin_false in Hgate.
      repeat split; try tauto; intros _; try exact Hgate.
      cbn. discriminate.
  - intros Hvalid. unfold BookRoutes.put.
    rewrite Hvalid, Hfound. cbn [isEmpty negb].
    destruct (BookRoutes.notOwnerNorAdmin b requester) eqn:Hgate.
    + apply notOwnerNorAdmin_true in Hgate.
      cbn. repeat split; try tauto; intros; tauto.
    + apply notOwnerNorAdmin_false in Hgate.
      repeat split; try tauto; intros _; try exact Hgate.
      destruct (Book.findByIdAndUpdate _ _ _ _) as [e | [ub bs]];
        cbn; discriminate.
Qed.

(** An update object that names [addedBy] moves the book to the user it
    names: the store sets the path like any other path of the schema. *)
Lemma update_sets_addedBy (env : Env) (id s : string) (o : ObjectId)
    (b : Book.t) (m : gmap ObjectId Book.t) :
  required (castObjectId (JStr id)) = Returns o ->
  m !! o = Some b ->
  isHex24 s = true ->
  Book.findByIdAndUpdate env id {["addedBy" := JStr s]} m
  = Returns
      (Some {| _id := o;
               doc := Book.set_updatedAt (Date_now env)
                        (Book.set_addedBy (lowerHex s) b) |},
       <[o := Book.set_updatedAt (Date_now env)
                (Book.set_addedBy (lowerHex s) b)]> m).
Proof.
  intros Hcast Hstored Hhex.
  assert (Hop : Book.hasOperator {["addedBy" := JStr s]} = false).
  { unfold Book.hasOperator. rewrite map_to_list_singleton. reflexivity. }
  unfold Book.findByIdAndUpdate, Book.checkId, Book.applyUpdate.
  rewrite Hop. unfold Book.setPaths, Book.setPath.
  rewrite Hcast. cbn [mbind Outcome_bind].
  rewrite (lookup_singleton_ne "addedBy" "_id") by done.
  cbn [mbind Outcome_bind]. rewrite Hstored.
  rewrite (lookup_singleton_ne "addedBy" "title"),
    (lookup_singleton_ne "addedBy" "author"),
    (lookup_singleton_ne "addedBy" "description"),
    (lookup_singleton_ne "addedBy" "genre"),
    (lookup_singleton_ne "addedBy" "year"),
    (lookup_singleton_ne "addedBy" "price"),
    (lookup_singleton_ne "addedBy" "available") by done.
  rewrite lookup_singleton_eq. cbn [mbind Outcome_bind].
  unfold Book.addedByPath, castObjectId. rewrite Hhex. reflexivity.
Qed.

(** The sibling of the update: a created book belongs to the requester,
    whatever [addedBy] the body carries. *)
Lemma post_owner_is_requester (env : Env) (requester : Doc User.t)
    (req : Request) (db : Db) (d : Doc Book.t)
    (bs : gmap ObjectId Book.t) :
  Book.create env (<["addedBy" := JObjectId (_id requester)]> (body req))
              (books db) = Returns (d, bs) ->
  Book.addedBy (doc d) = _id requester.
Proof.
  unfold Book.create, prop. rewrite lookup_insert_eq. cbn [default].
  repeat match goal with
         | |- context [mbind _ ?o] =>
             lazymatch o with
             | Returns _ => cbn [mbind Outcome_bind]
             | Throws _ => cbn [mbind Outcome_bind]
             | _ => destruct o eqn:?; cbn [mbind Outcome_bind]
             end
         end; try discriminate.
  destruct (books db !! _); [discriminate |].
  intros [= <- _]. cbn.
  match goal with
  | Hc : Book.addedByPath _ = Returns _ |- _ =>
      cbn in Hc; injection Hc as <-
  end.
  reflexivity.
Qed.
End BookProperties.

(** ** The handlers on concrete requests *)

Section Evaluations.

(** C1, as first stated, fails: Bob, who is neither the owner of the
    book nor an admin, sends an update whose title has 201 characters;
    the book exists, and the answer is the 400 of the validators, not
    403. *)
Lemma put_invalid_body_is_400 :
  Book.findByParam (H := Sample.platform) Sample.dune_id (books Sample.db)
  = Returns (Some {| _id := Sample.dune_id; doc := Sample.dune |})
  /\ ~ BookRoutes.ownerOrAdmin Sample.bob
         {| _id := Sample.dune_id; doc := Sample.dune |}
  /\ status (fst (BookRoutes.put (H := Sample.platform) (Sample.env 5000 "")
                    Sample.bob
                    (Sample.request None Sample.dune_id
                       {["title" := JStr Sample.longTitle]})
                    Sample.db)) = 400%Z
  /\ status (fst (BookRoutes.put (H := Sample.platform) (Sample.env 5000 "")
                    Sample.bob
                    (Sample.request None Sample.dune_id
                       {["title" := JStr Sample.longTitle]})
                    Sample.db)) <> 403%Z.
Proof.
  split; [vm_compute; reflexivity |]. split.
  - intros [Ho | Ha]; [vm_compute in Ho | vm_compute in Ha]; discriminate.
  - split; [vm_compute; reflexivity | vm_compute; discriminate].
Qed.

(** C2 fails on the code: Alice, the owner, sends the update
    [{ addedBy: <Bob's id> }]; no validator looks at [addedBy], the body
    goes to the store as it is, and the book now belongs to Bob. This
    holds on every platform. *)
Theorem put_reassigns_owner `{Platform} (env : Env) :
  BookRoutes.ownerOrAdmin Sample.alice
    {| _id := Sample.dune_id; doc := Sample.dune |}
  /\ Book.addedBy <$> books Sample.db !! Sample.dune_id = Some Sample.alice_id
  /\ status (fst (BookRoutes.put env Sample.alice
                    (Sample.request None Sample.dune_id
                       {["addedBy" := JStr Sample.bob_id]})
                    Sample.db)) = 200%Z
  /\ Book.addedBy
       <$> books (snd (BookRoutes.put env Sample.alice
                         (Sample.request None Sample.dune_id
                            {["addedBy" := JStr Sample.bob_id]})
                         Sample.db)) !! Sample.dune_id
     = Some Sample.bob_id.
Proof.
  split; [left; reflexivity |].
  split; [vm_compute; reflexivity |].
  split; vm_compute; reflexivity.
Qed.

(** C3 fails on the code: the lookup of carol's registration finds
    nobody, another registration for carol is saved before this one is,
    the store refuses the save with a duplicate key, and the answer is
    the 500 of the catch-all handler, not the 400 of a conflict. *)
Theorem register_race_is_500 :
  User.findByEmailOrUsername (H := Sample.platform)
    (prop Sample.carolBody "email") (prop Sample.carolBody "username")
    (users Sample.db) = Returns None
  /\ User.create (H := Sample.platform) (Sample.env 5000 Sample.carol_id)
       (prop Sample.carolBody "username") (prop Sample.carolBody "email")
       (prop Sample.carolBody "password") (users (Sample.rival Sample.db))
     = Throws DuplicateKey
  /\ AuthRoutes.register (H := Sample.platform)
       (Sample.env 5000 Sample.carol_id) Sample.rival
       (Sample.request None "" Sample.carolBody) Sample.db
     = (send 500 (Error_ "Registration failed"), Sample.rival Sample.db).
Proof.
  split; [vm_compute; reflexivity |].
  split; vm_compute; reflexivity.
Qed.
(** End-to-end scenario 1: alice registers on an empty store and gets
    201; she logs in with the same credentials and gets 200; the profile
    read with her token is her record. *)
Example scenario_register_login_profile :
  let env := Sample.env 1000 Sample.alice_id in
  let r1 := serve (H := Sample.platform) env POST_auth_register
              (Sample.request None "" Sample.aliceBody) Sample.nobody in
  let r2 := serve (H := Sample.platform) Sample.today POST_auth_login
              (Sample.request None "" (Sample.loginBody "secret1")) (snd r1) in
  let r3 := serve (H := Sample.platform) Sample.today GET_auth_profile
              (Sample.request Sample.asAlice "" ∅) (snd r2) in
  status (fst r1) = 201%Z /\ status (fst r2) = 200%Z
  /\ fst r3
     = send 200 (User_ {| User.json_id := Sample.alice_id;
                          User.json_username := "alice";
                          User.json_email := "alice@x.com";
                          User.json_role := user;
                          User.json_createdAt := 1000;
                          User.json_updatedAt := 1000 |}).
Proof. vm_compute. repeat split; reflexivity. Qed.

(** End-to-end scenario 2: Bob, not an admin, is refused the update of
    Alice's book with 403; an admin gets 200. *)
Example scenario_update_by_other_and_admin :
  status (fst (serve (H := Sample.platform) Sample.today PUT_books_id
                 (Sample.request (Sample.bearer Sample.bob_id) Sample.dune_id
                    {["title" := JStr "Dune Messiah"]})
                 Sample.db)) = 403%Z
  /\ status (fst (serve (H := Sample.platform) Sample.today PUT_books_id
                    (Sample.request (Sample.bearer Sample.root_id)
                       Sample.dune_id {["title" := JStr "Dune Messiah"]})
                    Sample.db)) = 200%Z.
Proof. vm_compute. split; reflexivity. Qed.



(** An update operator goes past the validators of the route and of the
    schema: Alice adds 1000 to the year of her book, and the store holds
    a year that the schema refuses. *)
Example put_inc_year :
  exists pb,
    fst (BookRoutes.put (H := Sample.platform) Sample.today Sample.alice
           (Sample.request None Sample.dune_id Sample.incYear) Sample.db)
    = send 200 (Saved_ "Book updated successfully" (Some pb))
    /\ Book.year (doc (Book.book pb)) = Some (inject_Z 2965)
    /\ conforms Sample.today (doc (Book.book pb)) = false.
Proof. eexists. vm_compute. repeat split. Qed.

Example scenario_register_taken :
  serve (H := Sample.platform) (Sample.env 5000 Sample.carol_id)
        POST_auth_register
        (Sample.request None ""
           (<["username" := JStr "alice"]> Sample.carolBody))
        Sample.db
  = (send 400 (Error_ "User with this email or username already exists"),
     Sample.db).
Proof. vm_compute. reflexivity. Qed.
End Evaluations.

(** ** The theorems at concrete requests *)

Section Witnesses.
#[local] Existing Instance Sample.platform.

Lemma token_round_trip_witness :
  exists p sig,
    AuthRoutes.generateToken Sample.issued Sample.alice_id = jwt.JWS p sig
    /\ jwt.userId p = Sample.alice_id
    /\ jwt.iat p = jwt.clockTimestamp (Date_now Sample.issued)
    /\ jwt.exp p = (jwt.iat p + 24 * 60 * 60)%Z
    /\ jwt.verify (Date_now Sample.today)
                  (AuthRoutes.generateToken Sample.issued Sample.alice_id)
                  (secretOrKey Sample.today) = inr p.
Proof.
  apply (token_round_trip Sample.issued Sample.today Sample.alice_id);
    [reflexivity | vm_compute; reflexivity].
Defined.

Lemma token_expiry_witness :
  jwt.verify (Date_now Sample.tomorrow)
             (AuthRoutes.generateToken Sample.issued Sample.alice_id)
             (secretOrKey Sample.tomorrow) = inl jwt.ExpiredToken.
Proof.
  apply (token_expiry Sample.issued Sample.tomorrow Sample.alice_id);
    [reflexivity | vm_compute; reflexivity].
Defined.

Lemma stale_account_rejected_witness :
  Middleware.auth Sample.today (Sample.request Sample.asAlice "" ∅)
    (users (with_users (delete Sample.alice_id (users Sample.db)) Sample.db))
  = inl UnauthorizedAccess.
Proof.
  apply (stale_account_rejected Sample.issued Sample.today Sample.alice_id
           (Sample.request Sample.asAlice "" ∅) Sample.db AuthRoutes.getProfile);
    [reflexivity | vm_compute; reflexivity | reflexivity].
Defined.



Lemma profile_update_frame_witness :
  exists u',
    users (snd (serve Sample.today PUT_auth_profile
                  (Sample.request Sample.asAlice ""
                     (<["username" := JStr "alicia"]>
                        (<["role" := JStr "admin"]>
                           {["password" := JStr "letmein"]})))
                  Sample.db)) !! Sample.alice_id = Some u'
    /\ User.role u' = user
    /\ User.password u' = User.password (doc Sample.alice).
Proof.
  destruct (profile_update_frame Sample.today
              (Sample.request Sample.asAlice ""
                 (<["username" := JStr "alicia"]>
                    (<["role" := JStr "admin"]>
                       {["password" := JStr "letmein"]})))
              Sample.db) as (_ & _ & Hkept).
  destruct (Hkept Sample.alice_id (doc Sample.alice))
    as (u' & Hk & Hrole & Hpw & _).
  - vm_compute. reflexivity.
  - exists u'. split; [exact Hk |]. split; [exact Hrole | exact Hpw].
Defined.

Lemma book_reads_public_witness :
  serve Sample.today GET_books
        (Sample.request Sample.asAlice "" {["title" := JStr "x"]}) Sample.db
  = serve Sample.today GET_books (Sample.request None "" ∅) Sample.db.
Proof.
  apply (book_reads_public Sample.today GET_books
           (Sample.request None "" ∅)
           (Sample.request Sample.asAlice "" {["title" := JStr "x"]}) Sample.db);
    [left; reflexivity | reflexivity | reflexivity].
Defined.

Lemma book_write_access_witness :
  BookRoutes.put Sample.today Sample.bob
    (Sample.request None Sample.dune_id {["title" := JStr "Mine"]}) Sample.db
  = (send 403 (Error_ "Access denied. You can only update your own books."),
     Sample.db)
  /\ BookRoutes.deleteById Sample.root
       (Sample.request None Sample.dune_id ∅) Sample.db
     = (send 200 (Message_ "Book deleted successfully"),
        with_books (delete Sample.dune_id (books Sample.db)) Sample.db).
Proof.
  split.
  - destruct (book_write_access Sample.today Sample.bob
                (Sample.request None Sample.dune_id {["title" := JStr "Mine"]})
                Sample.db {| _id := Sample.dune_id; doc := Sample.dune |})
      as [_ Hput]; [vm_compute; reflexivity |].
    destruct Hput as (_ & Hdeny & _); [vm_compute; reflexivity |].
    apply Hdeny. intros [Ho | Ha]; [vm_compute in Ho | vm_compute in Ha];
      discriminate.
  - destruct (book_write_access Sample.today Sample.root
                (Sample.request None Sample.dune_id ∅)
                Sample.db {| _id := Sample.dune_id; doc := Sample.dune |})
      as [(_ & _ & Hallow) _]; [vm_compute; reflexivity |].
    apply Hallow. right. reflexivity.
Defined.
End Witnesses.

(** * Further properties of the handlers *)

(** ** What an update object does to a book *)

Section BookUpdateProperties.
Context `{Platform}.

(** The book the [$set] of an update object produces: the timestamps
    stay, a path the object does not name stays, and a path it names
    holds what the schema makes of the value. *)
Lemma setPaths_paths (env : Env) (upd : gmap string JValue)
    (b b' : Book.t) :
  Book.setPaths env upd b = Returns b' ->
  (Book.createdAt b' = Book.createdAt b
   /\ Book.updatedAt b' = Book.updatedAt b)
  /\ (match upd !! "title" with
      | Some v => Book.titlePath v = Returns (Book.title b')
      | None => Book.title b' = Book.title b
      end
      /\ match upd !! "author" with
         | Some v => Book.authorPath v = Returns (Book.author b')
         | None => Book.author b' = Book.author b
         end
      /\ match upd !! "description" with
         | Some v => Book.descriptionPath v = Returns (Book.description b')
         | None => Book.description b' = Book.description b
         end
      /\ match upd !! "genre" with
         | Some v => Book.genrePath v = Returns (Book.genre b')
         | None => Book.genre b' = Book.genre b
         end)
  /\ (match upd !! "year" with
      | Some v => Book.yearPath env v = Returns (Book.year b')
      | None => Book.year b' = Book.year b
      end
      /\ match upd !! "price" with
         | Some v => Book.pricePath v = Returns (Book.price b')
         | None => Book.price b' = Book.price b
         end
      /\ match upd !! "available" with
         | Some v => Book.availablePath v = Returns (Book.available b')
         | None => Book.available b' = Book.available b
         end
      /\ match upd !! "addedBy" with
         | Some v => Book.addedByPath v = Returns (Book.addedBy b')
         | None => Book.addedBy b' = Book.addedBy b
         end).
Proof.
  unfold Book.setPaths, Book.setPath.
  destruct (upd !! "title") as [v1 |];
    [destruct (Book.titlePath v1) eqn:E1; [discriminate |] |];
    cbn [mbind Outcome_bind];
    (destruct (upd !! "author") as [v2 |];
     [destruct (Book.authorPath v2) eqn:E2; [discriminate |] |]);
    cbn [mbind Outcome_bind];
    (destruct (upd !! "description") as [v3 |];
     [destruct (Book.descriptionPath v3) eqn:E3; [discriminate |] |]);
    cbn [mbind Outcome_bind];
    (destruct (upd !! "genre") as [v4 |];
     [destruct (Book.genrePath v4) eqn:E4; [discriminate |] |]);
    cbn [mbind Outcome_bind];
    (destruct (upd !! "year") as [v5 |];
     [destruct (Book.yearPath env v5) eqn:E5; [discriminate |] |]);
    cbn [mbind Outcome_bind];
    (destruct (upd !! "price") as [v6 |];
     [destruct (Book.pricePath v6) eqn:E6; [discriminate |] |]);
    cbn [mbind Outcome_bind];
    (destruct (upd !! "available") as [v7 |];
     [destruct (Book.availablePath v7) eqn:E7; [discriminate |] |]);
    cbn [mbind Outcome_bind];
    (destruct (upd !! "addedBy") as [v8 |];
     [destruct (Book.addedByPath v8) eqn:E8; [discriminate |] |]);
    cbn [mbind Outcome_bind];
    intros [= <-]; cbn; repeat split; reflexivity.
Qed.


Lemma applyUpdate_paths (env : Env) (upd : gmap string JValue)
    (b b' : Book.t) :
  Book.hasOperator upd = false ->
  Book.applyUpdate env upd b = Returns b' ->
  (match upd !! "title" with
   | Some v => Book.titlePath v = Returns (Book.title b')
   | None => Book.title b' = Book.title b
   end
   /\ match upd !! "author" with
      | Some v => Book.authorPath v = Returns (Book.author b')
      | None => Book.author b' = Book.author b
      end
   /\ match upd !! "description" with
      | Some v => Book.descriptionPath v = Returns (Book.description b')
      | None => Book.description b' = Book.description b
      end
   /\ match upd !! "genre" with
      | Some v => Book.genrePath v = Returns (Book.genre b')
      | None => Book.genre b' = Book.genre b
      end)
  /\ (match upd !! "year" with
      | Some v => Book.yearPath env v = Returns (Book.year b')
      | None => Book.year b' = Book.year b
      end
      /\ match upd !! "price" with
         | Some v => Book.pricePath v = Returns (Book.price b')
         | None => Book.price b' = Book.price b
         end
      /\ match upd !! "available" with
         | Some v => Book.availablePath v = Returns (Book.available b')
         | None => Book.available b' = Book.available b
         end
      /\ match upd !! "addedBy" with
         | Some v => Book.addedByPath v = Returns (Book.addedBy b')
         | None => Book.addedBy b' = Book.addedBy b
         end).
Proof.
  unfold Book.applyUpdate. intros ->. intros Hset.
  apply setPaths_paths in Hset as [_ Hpaths]. exact Hpaths.
Qed.
End BookUpdateProperties.

(** ** Updating a book *)

Section BookPutProperties.
Context `{Platform}.

(** [PUT /:id] either leaves the stores as they are and answers something
    other than 200, or replaces the one book at the id of the request by
    what the body makes of it and answers 200 with that book. *)
Lemma put_cases (env : Env) (requester : Doc User.t) (req : Request)
    (db : Db) :
  (snd (BookRoutes.put env requester req db) = db
   /\ status (fst (BookRoutes.put env requester req db)) <> 200%Z)
  \/ exists (o : ObjectId) (b b1 : Book.t),
       required (castObjectId (JStr (params_id req))) = Returns o
       /\ books db !! o = Some b
       /\ validationResult (BookRoutes.updateChains env) (body req) = []
       /\ BookRoutes.notOwnerNorAdmin {| _id := o; doc := b |} requester
          = false
       /\ Book.applyUpdate env (body req) b = Returns b1
       /\ BookRoutes.put env requester req db
          = (send 200
               (Saved_ "Book updated successfully"
                  (Some (Book.populate (users db)
                           {| _id := o;
                              doc := Book.set_updatedAt (Date_now env) b1 |}))),
             with_books
               (<[o := Book.set_updatedAt (Date_now env) b1]> (books db)) db).
Proof.
  unfold BookRoutes.put.
  destruct (validationResult _ _) as [| e errors] eqn:Hvalid;
    cbn [isEmpty negb]; [| left; split; [reflexivity | discriminate]].
  unfold Book.findByParam, Book.findByIdAndUpdate.
  destruct (required (castObjectId (JStr (params_id req)))) as [e | o] eqn:Hcast;
    cbn [mbind Outcome_bind]; [left; split; [reflexivity | discriminate] |].
  unfold findById.
  destruct (books db !! o) as [b |] eqn:Hstored;
    [| left; split; [reflexivity | discriminate]].
  destruct (BookRoutes.notOwnerNorAdmin _ requester) eqn:Hgate;
    [left; split; [reflexivity | discriminate] |].
  destruct (Book.checkId (body req) o) as [e | []];
    cbn [mbind Outcome_bind]; [left; split; [reflexivity | discriminate] |].
  destruct (Book.applyUpdate env (body req) b) as [e | b1] eqn:Happly;
    cbn [mbind Outcome_bind]; [left; split; [reflexivity | discriminate] |].
  right. exists o, b, b1. repeat split; assumption || reflexivity.
Qed.


(** X2. With a body that is a JSON object and uses no update operator
    (no key that starts with a dollar sign), [PUT /:id] changes no path
    of a book that the body does not name: for each of the eight paths of the schema, a
    stored book keeps the value it had when the body has no such key. *)
Theorem put_changes_named_paths_only (env : Env) (requester : Doc User.t)
    (req : Request) (db : Db) (k : ObjectId) (b b' : Book.t) :
  Book.hasOperator (body req) = false ->
  books db !! k = Some b ->
  books (snd (BookRoutes.put env requester req db)) !! k = Some b' ->
  ((body req !! "title" = None -> Book.title b' = Book.title b)
   /\ (body req !! "author" = None -> Book.author b' = Book.author b)
   /\ (body req !! "description" = None ->
       Book.description b' = Book.description b)
   /\ (body req !! "genre" = None -> Book.genre b' = Book.genre b))
  /\ ((body req !! "year" = None -> Book.year b' = Book.year b)
      /\ (body req !! "price" = None -> Book.price b' = Book.price b)
      /\ (body req !! "available" = None ->
          Book.available b' = Book.available b)
      /\ (body req !! "addedBy" = None ->
          Book.addedBy b' = Book.addedBy b)).
Proof.
  intros Hplain Hk Hk'.
  destruct (put_cases env requester req db)
    as [[Hsame _] | (o & b0 & b1 & _ & Hstored & _ & _ & Happly & Hput)].
  - rewrite Hsame in Hk'. assert (b' = b) as -> by congruence. tauto.
  - rewrite Hput in Hk'. cbn [snd books with_books] in Hk'.
    destruct (decide (k = o)) as [-> | Hko].
    + rewrite lookup_insert_eq in Hk'. injection Hk' as <-.
      assert (b = b0) as -> by congruence.
      apply (applyUpdate_paths _ _ _ _ Hplain) in Happly
        as ((P1 & P2 & P3 & P4) & (P5 & P6 & P7 & P8)).
      cbn. repeat split; intros Hnone;
        [rewrite Hnone in P1 | rewrite Hnone in P2 | rewrite Hnone in P3
         | rewrite Hnone in P4 | rewrite Hnone in P5 | rewrite Hnone in P6
         | rewrite Hnone in P7 | rewrite Hnone in P8]; assumption.
    + rewrite lookup_insert_ne in Hk' by congruence.
      assert (b' = b) as -> by congruence. tauto.
Qed.

End BookPutProperties.

(** ** Creating a book, and the bounds of the schema *)

Section BookSchemaProperties.
Context `{Platform}.

Lemma titlePath_bounds (v : JValue) (s : string) :
  Book.titlePath v = Returns s ->
  negb (String.eqb s "") = true /\ maxlength 200 s = true.
Proof.
  unfold Book.titlePath, validate, Book.nonEmpty.
  destruct (required (castString v)) as [e | x]; [discriminate |].
  cbn [mbind Outcome_bind].
  destruct (negb (String.eqb (trim x) "")) eqn:Hne; [| discriminate].
  cbn [mbind Outcome_bind].
  destruct (maxlength 200 (trim x)) eqn:Hmax; [| discriminate].
  intros [= <-]. split; assumption.
Qed.

Lemma authorPath_bounds (v : JValue) (s : string) :
  Book.authorPath v = Returns s ->
  negb (String.eqb s "") = true /\ maxlength 100 s = true.
Proof.
  unfold Book.authorPath, validate, Book.nonEmpty.
  destruct (required (castString v)) as [e | x]; [discriminate |].
  cbn [mbind Outcome_bind].
  destruct (negb (String.eqb (trim x) "")) eqn:Hne; [| discriminate].
  cbn [mbind Outcome_bind].
  destruct (maxlength 100 (trim x)) eqn:Hmax; [| discriminate].
  intros [= <-]. split; assumption.
Qed.

Lemma validateOpt_bounds {T} (ok : T -> bool) (x y : option T) :
  validateOpt ok x = Returns y ->
  match y with
  | Some z => ok z = true
  | None => True
  end.
Proof.
  unfold validateOpt. destruct x as [z |].
  - destruct (ok z) eqn:Hok; [| discriminate]. intros [= <-]. exact Hok.
  - intros [= <-]. exact I.
Qed.

Lemma descriptionPath_bounds (v : JValue) (d : option string) :
  Book.descriptionPath v = Returns d ->
  match d with
  | Some s => maxlength 1000 s = true
  | None => True
  end.
Proof.
  unfold Book.descriptionPath.
  destruct (nullable (castString v)) as [e | x]; [discriminate |].
  cbn [mbind Outcome_bind]. apply validateOpt_bounds.
Qed.

Lemma genrePath_bounds (v : JValue) (g : option string) :
  Book.genrePath v = Returns g ->
  match g with
  | Some s => maxlength 50 s = true
  | None => True
  end.
Proof.
  unfold Book.genrePath.
  destruct (nullable (castString v)) as [e | x]; [discriminate |].
  cbn [mbind Outcome_bind]. apply validateOpt_bounds.
Qed.

Lemma yearPath_bounds (env : Env) (v : JValue) (y : option Q) :
  Book.yearPath env v = Returns y ->
  match y with
  | Some n => Qle_bool (inject_Z 1000) n
              && Qle_bool n (inject_Z (currentYear env)) = true
  | None => True
  end.
Proof.
  unfold Book.yearPath.
  destruct (nullable (castNumber v)) as [e | x]; [discriminate |].
  cbn [mbind Outcome_bind]. apply validateOpt_bounds.
Qed.

Lemma pricePath_bounds (v : JValue) (p : option Q) :
  Book.pricePath v = Returns p ->
  match p with
  | Some n => Qle_bool (inject_Z 0) n = true
  | None => True
  end.
Proof.
  unfold Book.pricePath.
  destruct (nullable (castNumber v)) as [e | x]; [discriminate |].
  cbn [mbind Outcome_bind]. apply validateOpt_bounds.
Qed.

(** The book [new Book(data).save()] stores: it is new to the
    collection, every path holds what the schema makes of the value in
    [data], its creation time is the one in [data] or else the time of
    the request, and its update time is its creation time. *)
Lemma create_paths (env : Env) (data : gmap string JValue)
    (m m' : gmap ObjectId Book.t) (d : Doc Book.t) :
  Book.create env data m = Returns (d, m') ->
  (m' = <[_id d := doc d]> m /\ m !! _id d = None
   /\ Book.createdAt (doc d)
      = match castDate (prop data "createdAt") with
        | Casted c => c
        | _ => Date_now env
        end
   /\ Book.updatedAt (doc d) = Book.createdAt (doc d))
  /\ (Book.titlePath (prop data "title") = Returns (Book.title (doc d))
      /\ Book.authorPath (prop data "author") = Returns (Book.author (doc d))
      /\ Book.descriptionPath (prop data "description")
         = Returns (Book.description (doc d))
      /\ Book.genrePath (prop data "genre") = Returns (Book.genre (doc d)))
  /\ (Book.yearPath env (prop data "year") = Returns (Book.year (doc d))
      /\ Book.pricePath (prop data "price") = Returns (Book.price (doc d))
      /\ match data !! "available" with
         | Some v => Book.availablePath v = Returns (Book.available (doc d))
         | None => Book.available (doc d) = Some true
         end
      /\ Book.addedByPath (prop data "addedBy")
         = Returns (Book.addedBy (doc d))).
Proof.
  unfold Book.create.
  destruct (Book.titlePath _) as [e | ti] eqn:E1; [discriminate |].
  cbn [mbind Outcome_bind].
  destruct (Book.authorPath _) as [e | au] eqn:E2; [discriminate |].
  cbn [mbind Outcome_bind].
  destruct (Book.descriptionPath _) as [e | de] eqn:E3; [discriminate |].
  cbn [mbind Outcome_bind].
  destruct (Book.genrePath _) as [e | ge] eqn:E4; [discriminate |].
  cbn [mbind Outcome_bind].
  destruct (Book.yearPath env _) as [e | ye] eqn:E5; [discriminate |].
  cbn [mbind Outcome_bind].
  destruct (Book.pricePath _) as [e | pr] eqn:E6; [discriminate |].
  cbn [mbind Outcome_bind].
  destruct (match data !! "available" with
            | Some v => Book.availablePath v
            | None => Returns (Some true)
            end) as [e | av] eqn:E7; [discriminate |].
  cbn [mbind Outcome_bind].
  destruct (Book.addedByPath _) as [e | ab] eqn:E8; [discriminate |].
  cbn [mbind Outcome_bind].
  destruct (match data !! "_id" with
            | Some v => required (castObjectId v)
            | None => Returns (newObjectId env)
            end) as [e | id] eqn:E9; [discriminate |].
  cbn [mbind Outcome_bind].
  destruct (castDate (prop data "createdAt")) as [| | c] eqn:E10;
    cbn [nullable mbind Outcome_bind default]; [discriminate | |];
    (destruct (m !! id) eqn:Hfresh; [discriminate |];
     intros [= <- <-]; cbn [_id doc];
     split; [repeat split; assumption || reflexivity |];
     split; [repeat split; reflexivity |];
     split; [reflexivity |]; split; [reflexivity |]; split; [| reflexivity];
     destruct (data !! "available"); cbn; [exact E7 | congruence]).
Qed.

(** [POST /] either leaves the stores as they are and answers something
    other than 201, or adds one book under an id that was free and
    answers 201 with that book. *)
Lemma post_cases (env : Env) (requester : Doc User.t) (req : Request)
    (db : Db) :
  (snd (BookRoutes.post env requester req db) = db
   /\ status (fst (BookRoutes.post env requester req db)) <> 201%Z)
  \/ exists (d : Doc Book.t),
       Book.create env
         (<["addedBy" := JObjectId (_id requester)]> (body req)) (books db)
       = Returns (d, <[_id d := doc d]> (books db))
       /\ books db !! _id d = None
       /\ BookRoutes.post env requester req db
          = (send 201
               (Saved_ "Book created successfully"
                  (Some (Book.populate (users db) d))),
             with_books (<[_id d := doc d]> (books db)) db).
Proof.
  unfold BookRoutes.post.
  destruct (validationResult _ _) as [| e errors];
    cbn [isEmpty negb]; [| left; split; [reflexivity | discriminate]].
  destruct (Book.create env _ (books db)) as [e | [d bs]] eqn:Hcreate;
    [left; split; [reflexivity | discriminate] |].
  right. exists d.
  pose proof (create_paths _ _ _ _ _ Hcreate) as [(-> & Hfresh & _) _].
  split; [reflexivity |]. split; [exact Hfresh |].
  unfold findById. rewrite lookup_insert_eq. destruct d. reflexivity.
Qed.

(** X4. [POST /] never touches the users nor a stored book. A book it
    adds belongs to the requester whatever [addedBy] the body carries;
    its creation time is the [createdAt] of the body when the body has
    one, the time of the request when it has none, and its update time
    is its creation time; it is available unless the body says
    otherwise. A book is added exactly when the answer is 201. *)
Theorem post_frame (env : Env) (requester : Doc User.t) (req : Request)
    (db : Db) :
  users (snd (BookRoutes.post env requester req db)) = users db
  /\ (forall k b,
        books db !! k = Some b ->
        books (snd (BookRoutes.post env requester req db)) !! k = Some b)
  /\ (forall k b,
        books db !! k = None ->
        books (snd (BookRoutes.post env requester req db)) !! k = Some b ->
        status (fst (BookRoutes.post env requester req db)) = 201%Z
        /\ Book.addedBy b = _id requester
        /\ Book.createdAt b
           = match castDate (prop (body req) "createdAt") with
             | Casted c => c
             | _ => Date_now env
             end
        /\ Book.updatedAt b = Book.createdAt b
        /\ (body req !! "available" = None -> Book.available b = Some true))
  /\ (status (fst (BookRoutes.post env requester req db)) = 201%Z ->
      exists k,
        books db !! k = None
        /\ is_Some (books (snd (BookRoutes.post env requester req db)) !! k)).
Proof.
  destruct (post_cases env requester req db)
    as [[-> Hnot] | (d & Hcreate & Hfresh & ->)].
  - split; [reflexivity |]. split; [tauto |]. split.
    + intros k b Hk Hk'. congruence.
    + intros Hok. contradiction.
  - cbn [fst snd status send users books with_books].
    split; [reflexivity |]. split; [| split].
    + intros k b Hk. rewrite lookup_insert_ne; [exact Hk | congruence].
    + intros k b Hk Hk'. destruct (decide (k = _id d)) as [-> | Hne].
      * rewrite lookup_insert_eq in Hk'. injection Hk' as <-.
        apply create_paths in Hcreate
          as ((_ & _ & Hc & Hu) & _ & (_ & _ & Hav & Hab)).
        unfold prop in Hab, Hc. rewrite lookup_insert_eq in Hab. cbn in Hab.
        injection Hab as Hab.
        rewrite lookup_insert_ne in Hav by discriminate.
        rewrite lookup_insert_ne in Hc by discriminate.
        repeat split; try assumption; [congruence |].
        intros Hnone. rewrite Hnone in Hav. exact Hav.
      * rewrite lookup_insert_ne in Hk' by congruence. congruence.
    + intros _. exists (_id d). split; [exact Hfresh |].
      rewrite lookup_insert_eq. eauto.
Qed.

Lemma conforms_intro (env : Env) (b : Book.t) :
  negb (String.eqb (Book.title b) "") = true ->
  maxlength 200 (Book.title b) = true ->
  negb (String.eqb (Book.author b) "") = true ->
  maxlength 100 (Book.author b) = true ->
  match Book.description b with
  | Some s => maxlength 1000 s = true
  | None => True
  end ->
  match Book.genre b with
  | Some s => maxlength 50 s = true
  | None => True
  end ->
  match Book.year b with
  | Some n => Qle_bool (inject_Z 1000) n
              && Qle_bool n (inject_Z (currentYear env)) = true
  | None => True
  end ->
  match Book.price b with
  | Some n => Qle_bool (inject_Z 0) n = true
  | None => True
  end ->
  conforms env b = true.
Proof.
  unfold conforms. intros -> -> -> -> Hd Hg Hy Hp. cbn [andb].
  destruct (Book.description b); [rewrite Hd |];
    (destruct (Book.genre b); [rewrite Hg |]);
    (destruct (Book.year b); [rewrite Hy |]);
    (destruct (Book.price b); [rewrite Hp |]); reflexivity.
Qed.

Lemma conforms_elim (env : Env) (b : Book.t) :
  conforms env b = true ->
  (negb (String.eqb (Book.title b) "") = true
   /\ maxlength 200 (Book.title b) = true
   /\ negb (String.eqb (Book.author b) "") = true
   /\ maxlength 100 (Book.author b) = true)
  /\ (match Book.description b with
      | Some s => maxlength 1000 s = true
      | None => True
      end
      /\ match Book.genre b with
         | Some s => maxlength 50 s = true
         | None => True
         end
      /\ match Book.year b with
         | Some n => Qle_bool (inject_Z 1000) n
                     && Qle_bool n (inject_Z (currentYear env)) = true
         | None => True
         end
      /\ match Book.price b with
         | Some n => Qle_bool (inject_Z 0) n = true
         | None => True
         end).
Proof.
  unfold conforms. rewrite !andb_true_iff.
  intros [[[[[[[H1 H2] H3] H4] H5] H6] H7] H8].
  split; [repeat split; assumption |].
  destruct (Book.description b), (Book.genre b), (Book.year b),
    (Book.price b); repeat split; assumption.
Qed.

(** X5. The bounds of models/Book.js are kept by the two routes that
    write books: when every stored book is within the bounds, so is
    every stored book after a [POST /], and after a [PUT /:id] whose
    body is a JSON object that uses no update operator (no key that
    starts with a dollar sign). *)
Theorem writes_keep_schema (env : Env) (requester : Doc User.t)
    (req : Request) (db : Db) :
  (forall k b, books db !! k = Some b -> conforms env b = true) ->
  (forall k b,
     books (snd (BookRoutes.post env requester req db)) !! k = Some b ->
     conforms env b = true)
  /\ (Book.hasOperator (body req) = false ->
      forall k b,
        books (snd (BookRoutes.put env requester req db)) !! k = Some b ->
        conforms env b = true).
Proof.
  intros Hall. split; [| intros Hplain].
  - destruct (post_cases env requester req db)
      as [[-> _] | (d & Hcreate & _ & ->)]; [exact Hall |].
    cbn [snd books with_books]. intros k b Hk.
    destruct (decide (k = _id d)) as [-> | Hne].
    + rewrite lookup_insert_eq in Hk. injection Hk as <-.
      apply create_paths in Hcreate
        as (_ & (P1 & P2 & P3 & P4) & (P5 & P6 & _ & _)).
      apply titlePath_bounds in P1 as [? ?].
      apply authorPath_bounds in P2 as [? ?].
      apply conforms_intro; try assumption.
      * exact (descriptionPath_bounds _ _ P3).
      * exact (genrePath_bounds _ _ P4).
      * exact (yearPath_bounds _ _ _ P5).
      * exact (pricePath_bounds _ _ P6).
    + rewrite lookup_insert_ne in Hk by congruence. exact (Hall k b Hk).
  - destruct (put_cases env requester req db)
      as [[-> _] | (o & b0 & b1 & _ & Hstored & _ & _ & Happly & ->)];
      [exact Hall |].
    cbn [snd books with_books]. intros k b Hk.
    destruct (decide (k = o)) as [-> | Hne].
    + rewrite lookup_insert_eq in Hk. injection Hk as <-.
      pose proof (conforms_elim _ _ (Hall o b0 Hstored))
        as ((T1 & T2 & A1 & A2) & (D & G & Y & P)).
      apply (applyUpdate_paths _ _ _ _ Hplain) in Happly
        as ((P1 & P2 & P3 & P4) & (P5 & P6 & _ & _)).
      change (conforms env (Book.set_updatedAt (Date_now env) b1))
        with (conforms env b1).
      apply conforms_intro.
      * destruct (body req !! "title");
          [apply titlePath_bounds in P1 as [? ?]; assumption
          | rewrite P1; exact T1].
      * destruct (body req !! "title");
          [apply titlePath_bounds in P1 as [? ?]; assumption
          | rewrite P1; exact T2].
      * destruct (body req !! "author");
          [apply authorPath_bounds in P2 as [? ?]; assumption
          | rewrite P2; exact A1].
      * destruct (body req !! "author");
          [apply authorPath_bounds in P2 as [? ?]; assumption
          | rewrite P2; exact A2].
      * destruct (body req !! "description");
          [exact (descriptionPath_bounds _ _ P3) | rewrite P3; exact D].
      * destruct (body req !! "genre");
          [exact (genrePath_bounds _ _ P4) | rewrite P4; exact G].
      * destruct (body req !! "year");
          [exact (yearPath_bounds _ _ _ P5) | rewrite P5; exact Y].
      * destruct (body req !! "price");
          [exact (pricePath_bounds _ _ P6) | rewrite P6; exact P].
    + rewrite lookup_insert_ne in Hk by congruence. exact (Hall k b Hk).
Qed.

(** X6. After a [POST /] answered 201, [GET /:id] with the id of the new
    book answers 200 with the very book the creation returned. *)
Theorem post_then_get (env : Env) (requester : Doc User.t)
    (req get : Request) (db : Db) (pb : Book.populated) :
  json (fst (BookRoutes.post env requester req db))
  = Saved_ "Book created successfully" (Some pb) ->
  required (castObjectId (JStr (params_id get)))
  = Returns (_id (Book.book pb)) ->
  BookRoutes.getById get (snd (BookRoutes.post env requester req db))
  = (send 200 (Book_ pb), snd (BookRoutes.post env requester req db)).
Proof.
  intros Hjson Hcast.
  destruct (post_cases env requester req db)
    as [[Hsame Hnot] | (d & _ & _ & Hpost)].
  - exfalso. revert Hjson Hnot. unfold BookRoutes.post.
    destruct (validationResult _ _); cbn [isEmpty negb]; [| discriminate].
    destruct (Book.create _ _ _) as [e | [d bs]]; [discriminate |].
    cbn. intros _ Hnot. apply Hnot. reflexivity.
  - rewrite Hpost in Hjson |- *. cbn [fst snd json send] in Hjson |- *.
    injection Hjson as <-.
    unfold BookRoutes.getById, Book.findByParam. rewrite Hcast.
    cbn [mbind Outcome_bind books with_books Book.populate Book.book].
    unfold findById. rewrite lookup_insert_eq. destruct d. reflexivity.
Qed.
End BookSchemaProperties.

(** ** Deleting a book, and the keys a body may carry *)

Section BookDeleteProperties.
Context `{Platform}.



End BookDeleteProperties.

(** ** Reading books *)

Section BookReadProperties.
Context `{Platform}.

#[local] Instance newerFirst_trans : Transitive Book.newerFirst.
Proof. unfold Book.newerFirst. intros x y z Hxy Hyz. lia. Qed.

#[local] Instance newerFirst_total : Total Book.newerFirst.
Proof. unfold Book.newerFirst. intros x y. lia. Qed.

Lemma filter_sublist {A} (f : A -> bool) (l : list A) :
  List.filter f l `sublist_of` l.
Proof.
  induction l as [| x l IH]; cbn; [constructor |].
  destruct (f x); constructor; exact IH.
Qed.

Lemma matching_spec (q : Book.t -> bool) (m : gmap ObjectId Book.t)
    (d : Doc Book.t) :
  d ∈ Book.matching q m <-> m !! _id d = Some (doc d) /\ q (doc d) = true.
Proof.
  unfold Book.matching. rewrite list_elem_of_fmap. split.
  - intros ([k b] & -> & Hin). apply list_elem_of_In, filter_In in Hin
      as [Hin Hq]. apply list_elem_of_In, elem_of_map_to_list in Hin.
    split; assumption.
  - intros [Hm Hq]. exists (_id d, doc d). split; [destruct d; reflexivity |].
    apply list_elem_of_In, filter_In. split; [| exact Hq].
    apply list_elem_of_In, elem_of_map_to_list, Hm.
Qed.

Lemma matching_ids (q : Book.t -> bool) (m : gmap ObjectId Book.t) :
  NoDup (_id <$> Book.matching q m).
Proof.
  unfold Book.matching. rewrite <- list_fmap_compose.
  apply (sublist_NoDup _ ((map_to_list m).*1));
    [apply NoDup_fst_map_to_list |].
  apply fmap_sublist, filter_sublist.
Qed.

(** What a page of [find] holds. *)
Lemma find_page (q : Book.t -> bool) (skip limit : Z)
    (m : gmap ObjectId Book.t) (found : list (Doc Book.t)) :
  Book.find q skip limit m = Returns found ->
  (0 <= skip)%Z
  /\ (length found <= Z.to_nat (Z.abs limit))%nat
  /\ (Z.of_nat (length found) <= Book.countDocuments q m)%Z
  /\ (forall d, d ∈ found -> m !! _id d = Some (doc d) /\ q (doc d) = true)
  /\ StronglySorted Book.newerFirst found
  /\ NoDup (_id <$> found).
Proof.
  unfold Book.find, Book.countDocuments.
  destruct (skip <? 0)%Z eqn:Hskip; [discriminate |].
  apply Z.ltb_ge in Hskip. intros [= <-].
  set (sorted := merge_sort Book.newerFirst (Book.matching q m)).
  assert (Hperm : sorted ≡ₚ Book.matching q m)
    by apply merge_sort_Permutation.
  assert (Hsub : take (Z.to_nat (Z.abs limit)) (drop (Z.to_nat skip) sorted)
                 `sublist_of` sorted).
  { etransitivity; [apply sublist_take | apply sublist_drop]. }
  split; [exact Hskip |]. split; [rewrite length_take; lia |].
  split; [| split; [| split]].
  - apply sublist_length in Hsub. rewrite <- (Permutation_length Hperm). lia.
  - intros d Hd. apply matching_spec. rewrite <- Hperm.
    eapply elem_of_sublist; eassumption.
  - assert (Hsorted : StronglySorted Book.newerFirst sorted)
      by apply (StronglySorted_merge_sort _).
    rewrite <- (take_drop (Z.to_nat skip) sorted) in Hsorted.
    apply StronglySorted_app_1_r in Hsorted.
    rewrite <- (take_drop (Z.to_nat (Z.abs limit))
                          (drop (Z.to_nat skip) sorted)) in Hsorted.
    apply StronglySorted_app_1_l in Hsorted. exact Hsorted.
  - apply (sublist_NoDup _ (_id <$> sorted)).
    + rewrite Hperm. apply matching_ids.
    + apply fmap_sublist, Hsub.
Qed.

Lemma paginated_page (db : Db) (q : Book.t -> bool) (pg lm : Z) (j : Json) :
  BookRoutes.paginated db q pg lm = Returns j ->
  exists found,
    Book.find q ((pg - 1) * lm) lm (books db) = Returns found
    /\ j = Books_ (Book.populate (users db) <$> found)
                  {| page := pg; limit := lm;
                     total := Book.countDocuments q (books db);
                     pages := BookRoutes.ceilDiv
                                (Book.countDocuments q (books db)) lm |}.
Proof.
  unfold BookRoutes.paginated.
  destruct (Book.find _ _ _ _) as [e | found]; [discriminate |].
  cbn [mbind Outcome_bind]. intros [= <-]. exists found.
  split; reflexivity.
Qed.

Lemma populate_book (us : gmap ObjectId User.t) (found : list (Doc Book.t)) :
  Book.book <$> (Book.populate us <$> found) = found.
Proof.
  induction found as [| d found IH]; [reflexivity |].
  cbn. f_equal. exact IH.
Qed.

Lemma populated_elem (us : gmap ObjectId User.t) (found : list (Doc Book.t))
    (p : Book.populated) :
  p ∈ Book.populate us <$> found ->
  Book.book p ∈ found /\ p = Book.populate us (Book.book p).
Proof.
  intros (d & -> & Hd)%list_elem_of_fmap. split; [exact Hd | reflexivity].
Qed.

Lemma getAll_cases (req : Request) (db : Db) :
  snd (BookRoutes.getAll req db) = db
  /\ (status (fst (BookRoutes.getAll req db)) = 200%Z ->
      exists found,
        Book.find (Book.satisfies (BookRoutes.listQuery (query req)))
          ((BookRoutes.parseIntOr (query req !! "page") 1 - 1)
           * BookRoutes.parseIntOr (query req !! "limit") 10)
          (BookRoutes.parseIntOr (query req !! "limit") 10) (books db)
        = Returns found
        /\ json (fst (BookRoutes.getAll req db))
           = Books_ (Book.populate (users db) <$> found)
               {| page := BookRoutes.parseIntOr (query req !! "page") 1;
                  limit := BookRoutes.parseIntOr (query req !! "limit") 10;
                  total := Book.countDocuments
                             (Book.satisfies
                                (BookRoutes.listQuery (query req)))
                             (books db);
                  pages := BookRoutes.ceilDiv
                             (Book.countDocuments
                                (Book.satisfies
                                   (BookRoutes.listQuery (query req)))
                                (books db))
                             (BookRoutes.parseIntOr (query req !! "limit")
                                                    10) |}).
Proof.
  unfold BookRoutes.getAll.
  destruct (BookRoutes.paginated _ _ _ _) as [e | j] eqn:Hpage.
  - split; [reflexivity | discriminate].
  - split; [reflexivity |]. intros _.
    apply paginated_page in Hpage as (found & Hfind & ->).
    exists found. split; [exact Hfind | reflexivity].
Qed.

Lemma getAll_page_contents_aux (req : Request) (db : Db) :
  status (fst (BookRoutes.getAll req db)) = 200%Z ->
  exists bs pg,
    BookRoutes.getAll req db = (send 200 (Books_ bs pg), db)
    /\ forall p, p ∈ bs ->
         books db !! _id (Book.book p) = Some (doc (Book.book p))
         /\ Book.satisfies (BookRoutes.listQuery (query req))
                           (doc (Book.book p)) = true
         /\ p = Book.populate (users db) (Book.book p).
Proof.
  intros Hok. destruct (getAll_cases req db) as [Hdb Hpage].
  destruct (Hpage Hok) as (found & Hfind & Hjson).
  apply find_page in Hfind as (_ & _ & _ & Hin & _ & _).
  eexists. eexists. split.
  - destruct (BookRoutes.getAll req db) as [[code j] db'].
    cbn in Hok, Hdb, Hjson. subst. reflexivity.
  - intros p Hp. apply populated_elem in Hp as [Hp Heq].
    destruct (Hin _ Hp) as [Hstored Hq]. repeat split; assumption.
Qed.


(** X10. A page of [GET /] holds at most as many books as the absolute
    value of the limit, lists them newest first, and lists no book
    twice. *)
Theorem getAll_page_shape (req : Request) (db : Db) :
  status (fst (BookRoutes.getAll req db)) = 200%Z ->
  exists bs pg,
    json (fst (BookRoutes.getAll req db)) = Books_ bs pg
    /\ (length bs <= Z.to_nat (Z.abs (limit pg)))%nat
    /\ StronglySorted
         (fun x y => (Book.createdAt (doc y) <= Book.createdAt (doc x))%Z)
         (Book.book <$> bs)
    /\ NoDup ((fun p => _id (Book.book p)) <$> bs).
Proof.
  intros Hok. destruct (getAll_cases req db) as [_ Hpage].
  destruct (Hpage Hok) as (found & Hfind & Hjson).
  apply find_page in Hfind as (_ & Hlen & _ & _ & Hsorted & Hdup).
  eexists. eexists. split; [exact Hjson |]. cbn [limit].
  split; [rewrite length_fmap; exact Hlen |].
  split; [rewrite populate_book; exact Hsorted |].
  rewrite (list_fmap_compose Book.book _id), populate_book. exact Hdup.
Qed.
End BookReadProperties.

(** ** Filters, pages and genres *)

Section BookQueryProperties.
Context `{Platform}.

(** X11. The availability filter of [GET /]: with [available] in the
    query, every book listed has its flag equal to whether the
    parameter is the string "true", so that any other value, "false" or
    not, lists the books that are not available. *)
Theorem getAll_available (req : Request) (db : Db) (bs : list Book.populated)
    (pg : Pagination) (a : string) (p : Book.populated) :
  json (fst (BookRoutes.getAll req db)) = Books_ bs pg ->
  query req !! "available" = Some a ->
  p ∈ bs ->
  Book.available (doc (Book.book p)) = Some (String.eqb a "true").
Proof.
  intros Hjson Ha Hp.
  assert (Hok : status (fst (BookRoutes.getAll req db)) = 200%Z).
  { revert Hjson. unfold BookRoutes.getAll.
    destruct (BookRoutes.paginated _ _ _ _); [discriminate | reflexivity]. }
  destruct (getAll_page_contents_aux req db Hok) as (bs' & pg' & Hall & Hin).
  rewrite Hall in Hjson. cbn in Hjson. injection Hjson as <- <-.
  destruct (Hin p Hp) as (_ & Hq & _).
  unfold Book.satisfies, BookRoutes.listQuery in Hq.
  cbn [Book.q_available] in Hq. rewrite Ha in Hq. cbn in Hq.
  apply andb_true_iff in Hq as [_ Hq].
  destruct (Book.available (doc (Book.book p))) as [a' |]; [| discriminate].
  apply Bool.eqb_prop in Hq. congruence.
Qed.
End BookQueryProperties.

Section BookPageProperties.
Context `{Platform}.

Lemma ceilDiv_pos (n d : Z) :
  (0 < d)%Z ->
  ((BookRoutes.ceilDiv n d - 1) * d < n <= BookRoutes.ceilDiv n d * d)%Z.
Proof.
  intros Hd. unfold BookRoutes.ceilDiv.
  pose proof (Z.div_mod (- n) d ltac:(lia)) as Hdm.
  pose proof (Z.mod_pos_bound (- n) d Hd) as Hmod.
  nia.
Qed.

Lemma ceilDiv_neg (n d : Z) :
  (0 <= n)%Z -> (d < 0)%Z -> (BookRoutes.ceilDiv n d <= 0)%Z.
Proof.
  intros Hn Hd. unfold BookRoutes.ceilDiv.
  assert (0 <= (- n) / d)%Z; [| lia].
  replace d with (- (- d))%Z by lia.
  rewrite Z.div_opp_opp by lia. apply Z.div_pos; lia.
Qed.

(** X13. The pagination of a 200 answer of [GET /]: the total is not
    negative; with a positive limit, [pages] is the least number of
    pages of that size that hold [total] books; with a negative limit,
    [pages] is 0 or negative. *)
Theorem getAll_pages (req : Request) (db : Db) (bs : list Book.populated)
    (pg : Pagination) :
  json (fst (BookRoutes.getAll req db)) = Books_ bs pg ->
  (0 <= total pg)%Z
  /\ ((0 < limit pg)%Z ->
      ((pages pg - 1) * limit pg < total pg <= pages pg * limit pg)%Z)
  /\ ((limit pg < 0)%Z -> (pages pg <= 0)%Z).
Proof.
  unfold BookRoutes.getAll.
  destruct (BookRoutes.paginated _ _ _ _) as [e | j] eqn:Hpage;
    [discriminate |].
  apply paginated_page in Hpage as (found & _ & ->).
  cbn. intros [= <- <-]. cbn [total limit pages].
  assert (Hn : (0 <= Book.countDocuments
                       (Book.satisfies (BookRoutes.listQuery (query req)))
                       (books db))%Z)
    by (unfold Book.countDocuments; lia).
  split; [exact Hn |]. split.
  - apply ceilDiv_pos.
  - apply ceilDiv_neg, Hn.
Qed.

Lemma myBooks_cases (requester : Doc User.t) (req : Request) (db : Db) :
  snd (BookRoutes.myBooks requester req db) = db
  /\ forall bs pg,
       json (fst (BookRoutes.myBooks requester req db)) = Books_ bs pg ->
       exists found,
         Book.find (fun b => String.eqb (Book.addedBy b) (_id requester))
           ((BookRoutes.parseIntOr (query req !! "page") 1 - 1)
            * BookRoutes.parseIntOr (query req !! "limit") 10)
           (BookRoutes.parseIntOr (query req !! "limit") 10) (books db)
         = Returns found
         /\ bs = Book.populate (users db) <$> found
         /\ total pg
            = Book.countDocuments
                (fun b => String.eqb (Book.addedBy b) (_id requester))
                (books db).
Proof.
  unfold BookRoutes.myBooks.
  destruct (BookRoutes.paginated _ _ _ _) as [e | j] eqn:Hpage.
  - split; [reflexivity | discriminate].
  - split; [reflexivity |]. intros bs pg Hjson.
    apply paginated_page in Hpage as (found & Hfind & ->).
    cbn in Hjson. injection Hjson as <- <-. exists found.
    repeat split. exact Hfind.
Qed.

(** X14. [GET /user/my-books] lists only stored books whose owner is the
    requester, no book twice and newest first, and changes nothing. *)
Theorem myBooks_own (requester : Doc User.t) (req : Request) (db : Db)
    (bs : list Book.populated) (pg : Pagination) :
  json (fst (BookRoutes.myBooks requester req db)) = Books_ bs pg ->
  snd (BookRoutes.myBooks requester req db) = db
  /\ (forall p, p ∈ bs ->
        books db !! _id (Book.book p) = Some (doc (Book.book p))
        /\ Book.addedBy (doc (Book.book p)) = _id requester)
  /\ NoDup ((fun p => _id (Book.book p)) <$> bs)
  /\ StronglySorted
       (fun x y => (Book.createdAt (doc y) <= Book.createdAt (doc x))%Z)
       (Book.book <$> bs).
Proof.
  intros Hjson. destruct (myBooks_cases requester req db) as [Hdb Hpage].
  destruct (Hpage bs pg Hjson) as (found & Hfind & -> & _).
  apply find_page in Hfind as (_ & _ & _ & Hin & Hsorted & Hdup).
  split; [exact Hdb |]. split; [| split].
  - intros p Hp. apply populated_elem in Hp as [Hp _].
    destruct (Hin _ Hp) as [Hstored Hq]. split; [exact Hstored |].
    apply String.eqb_eq, Hq.
  - rewrite (list_fmap_compose Book.book _id), populate_book. exact Hdup.
  - rewrite populate_book. exact Hsorted.
Qed.

(** X15. [GET /genres/list] answers 200 with the genres of the stored
    books: each non-empty genre some stored book has is listed, nothing
    else is, and none is listed twice. *)
Theorem genres_list (req : Request) (db : Db) :
  exists gs,
    BookRoutes.genres req db = (send 200 (Genres_ gs), db)
    /\ NoDup gs
    /\ forall g,
         g ∈ gs
         <-> g <> "" /\ exists k b, books db !! k = Some b
                                    /\ Book.genre b = Some g.
Proof.
  unfold BookRoutes.genres. eexists. split; [reflexivity |]. split.
  - eapply sublist_NoDup; [apply NoDup_remove_dups | apply filter_sublist].
  - intros g. rewrite list_elem_of_In, filter_In, <- list_elem_of_In.
    rewrite elem_of_remove_dups, list_elem_of_omap, negb_true_iff,
      String.eqb_neq.
    split.
    + intros [([k b] & Hin & Hg) Hne]. split; [exact Hne |].
      exists k, b. split; [apply elem_of_map_to_list, Hin | exact Hg].
    + intros [Hne (k & b & Hk & Hg)]. split; [| exact Hne].
      exists (k, b). split; [apply elem_of_map_to_list, Hk | exact Hg].
Qed.
End BookPageProperties.

(** ** Accounts *)

Section UserStoreProperties.
Context `{Platform}.

Lemma taken_false (id : ObjectId) (u : User.t) (m : gmap ObjectId User.t) :
  User.taken id u m = false ->
  forall k v, m !! k = Some v -> k <> id ->
    User.username v <> User.username u /\ User.email v <> User.email u.
Proof.
  unfold User.taken, existsOther. intros Hnone k v Hk Hne.
  destruct (String.eqb (User.username v) (User.username u)
            || String.eqb (User.email v) (User.email u)) eqn:Hq.
  - exfalso. rewrite <- not_true_iff_false in Hnone. apply Hnone.
    apply existsb_exists. exists (k, v). split.
    + apply list_elem_of_In, elem_of_map_to_list, Hk.
    + cbn. rewrite Hq, andb_true_r. apply negb_true_iff, String.eqb_neq, Hne.
  - apply orb_false_elim in Hq as [Hu He].
    split; apply String.eqb_neq; assumption.
Qed.

Lemma taken_true (id : ObjectId) (u : User.t) (m : gmap ObjectId User.t)
    (k : ObjectId) (v : User.t) :
  m !! k = Some v -> k <> id ->
  User.username v = User.username u \/ User.email v = User.email u ->
  User.taken id u m = true.
Proof.
  intros Hk Hne Hsame. unfold User.taken, existsOther.
  apply existsb_exists. exists (k, v). split.
  - apply list_elem_of_In, elem_of_map_to_list, Hk.
  - cbn. apply andb_true_iff. split.
    + apply negb_true_iff, String.eqb_neq, Hne.
    + apply orb_true_iff.
      destruct Hsame as [-> | ->]; [left | right]; apply String.eqb_refl.
Qed.

Lemma uniqueUsers_insert (id : ObjectId) (u : User.t)
    (m : gmap ObjectId User.t) :
  uniqueUsers m -> User.taken id u m = false -> uniqueUsers (<[id := u]> m).
Proof.
  intros Huniq Hfree k1 k2 u1 u2 H1 H2 Hsame.
  destruct (decide (k1 = id)) as [-> | Hne1],
           (decide (k2 = id)) as [-> | Hne2]; [reflexivity | | |].
  - rewrite lookup_insert_eq in H1. injection H1 as <-.
    rewrite lookup_insert_ne in H2 by congruence.
    destruct (taken_false _ _ _ Hfree k2 u2 H2 Hne2) as [Hu He].
    destruct Hsame; congruence.
  - rewrite lookup_insert_eq in H2. injection H2 as <-.
    rewrite lookup_insert_ne in H1 by congruence.
    destruct (taken_false _ _ _ Hfree k1 u1 H1 Hne1) as [Hu He].
    destruct Hsame; congruence.
  - rewrite lookup_insert_ne in H1, H2 by congruence.
    exact (Huniq k1 k2 u1 u2 H1 H2 Hsame).
Qed.

(** The record [new User(...).save()] stores. *)
Lemma create_user (env : Env) (un em pw : JValue) (m m' : gmap ObjectId User.t)
    (d : Doc User.t) :
  User.create env un em pw m = Returns (d, m') ->
  exists un' em' pw',
    castString un = Casted un' /\ castString em = Casted em'
    /\ castString pw = Casted pw'
    /\ d = {| _id := newObjectId env;
              doc := {| User.username := un'; User.email := em';
                        User.password := bcrypt_hash (genSalt env) pw';
                        User.role := user;
                        User.createdAt := Date_now env;
                        User.updatedAt := Date_now env |} |}
    /\ m !! newObjectId env = None
    /\ User.taken (newObjectId env) (doc d) m = false
    /\ m' = <[newObjectId env := doc d]> m.
Proof.
  unfold User.create, required.
  destruct (castString un) as [| | un']; try discriminate.
  destruct (castString em) as [| | em']; try discriminate.
  destruct (castString pw) as [| | pw']; try discriminate.
  cbn [mbind Outcome_bind].
  destruct (m !! newObjectId env) eqn:Hfresh; [discriminate |].
  destruct (User.taken _ _ m) eqn:Htaken; [discriminate |].
  intros [= <- <-]. exists un', em', pw'. cbn [doc].
  repeat split; assumption.
Qed.

(** [POST /register] either answers something other than 201 and leaves
    the stores as the handler last saw them, or stores one new record
    and answers 201. *)
Lemma register_cases (env : Env) (others : Db -> Db) (req : Request)
    (db : Db) :
  (status (fst (AuthRoutes.register env others req db)) <> 201%Z
   /\ (snd (AuthRoutes.register env others req db) = db
       \/ snd (AuthRoutes.register env others req db) = others db))
  \/ exists d,
       User.create env (prop (body req) "username") (prop (body req) "email")
                   (prop (body req) "password") (users (others db))
       = Returns (d, <[_id d := doc d]> (users (others db)))
       /\ AuthRoutes.register env others req db
          = (send 201 (Auth_ "User registered successfully" (User.toJSON d)
                             (AuthRoutes.generateToken env (_id d))),
             with_users (<[_id d := doc d]> (users (others db)))
                        (others db)).
Proof.
  unfold AuthRoutes.register.
  destruct (validationResult _ _); cbn [isEmpty negb];
    [| left; split; [discriminate | left; reflexivity]].
  destruct (User.findByEmailOrUsername _ _ _) as [e | [existing |]];
    [left; split; [discriminate | left; reflexivity] ..|].
  destruct (User.create _ _ _ _ _) as [e | [d us]] eqn:Hcreate;
    [left; split; [discriminate | right; reflexivity] |].
  right. exists d.
  pose proof (create_user _ _ _ _ _ _ _ Hcreate)
    as (un & em & pw & _ & _ & _ & -> & _ & _ & ->).
  split; reflexivity.
Qed.

(** X16. A registration answered 201 stores one record under an id that
    was free, with the role [user] whatever the body carries, the
    password kept as the bcrypt digest of the one sent, and answers with
    that record and a token issued for its id; the books and the other
    users are left alone. *)
Theorem register_created (env : Env) (others : Db -> Db) (req : Request)
    (db : Db) :
  status (fst (AuthRoutes.register env others req db)) = 201%Z ->
  exists un em pw,
    castString (prop (body req) "username") = Casted un
    /\ castString (prop (body req) "email") = Casted em
    /\ castString (prop (body req) "password") = Casted pw
    /\ users (others db) !! newObjectId env = None
    /\ AuthRoutes.register env others req db
       = (send 201
            (Auth_ "User registered successfully"
               {| User.json_id := newObjectId env;
                  User.json_username := un; User.json_email := em;
                  User.json_role := user;
                  User.json_createdAt := Date_now env;
                  User.json_updatedAt := Date_now env |}
               (AuthRoutes.generateToken env (newObjectId env))),
          with_users
            (<[newObjectId env :=
                 {| User.username := un; User.email := em;
                    User.password := bcrypt_hash (genSalt env) pw;
                    User.role := user;
                    User.createdAt := Date_now env;
                    User.updatedAt := Date_now env |}]>
               (users (others db)))
            (others db)).
Proof.
  intros Hok.
  destruct (register_cases env others req db)
    as [[Hnot _] | (d & Hcreate & Hreg)]; [contradiction |].
  apply create_user in Hcreate
    as (un & em & pw & Hun & Hem & Hpw & -> & Hfresh & _ & _).
  exists un, em, pw. repeat split; try assumption.
Qed.

Lemma with_users_same (db : Db) : with_users (users db) db = db.
Proof. destruct db. reflexivity. Qed.

(** [PUT /profile] either answers something other than 200 and leaves
    the stores as they are, or replaces the record of the requester. *)
Lemma putProfile_cases (env : Env) (requester : Doc User.t) (req : Request)
    (db : Db) :
  (status (fst (AuthRoutes.putProfile env requester req db)) <> 200%Z
   /\ snd (AuthRoutes.putProfile env requester req db) = db)
  \/ exists u u1,
       users db !! _id requester = Some u
       /\ User.applyUpdate (AuthRoutes.profileUpdates (body req)) u
          = Returns u1
       /\ User.taken (_id requester) (User.set_updatedAt (Date_now env) u1)
                     (users db) = false
       /\ AuthRoutes.putProfile env requester req db
          = (send 200
               (Profile_ "Profile updated successfully"
                  (User.toJSON
                     {| _id := _id requester;
                        doc := User.set_updatedAt (Date_now env) u1 |})),
             with_users
               (<[_id requester := User.set_updatedAt (Date_now env) u1]>
                  (users db)) db).
Proof.
  unfold AuthRoutes.putProfile.
  destruct (validationResult _ _); cbn [isEmpty negb];
    [| left; split; [discriminate | reflexivity]].
  unfold User.findByIdAndUpdate.
  destruct (users db !! _id requester) as [u |] eqn:Hstored.
  - destruct (User.applyUpdate _ u) as [e | u1] eqn:Happly;
      cbn [mbind Outcome_bind]; [left; split; [discriminate | reflexivity] |].
    destruct (User.taken _ _ _) eqn:Htaken;
      [left; split; [discriminate | reflexivity] |].
    right. exists u, u1. repeat split; assumption.
  - destruct (User.applyUpdate _ _); cbn [mbind Outcome_bind];
      left; (split; [discriminate |]); [reflexivity |].
    apply with_users_same.
Qed.

(** X17. The unique indexes hold across the two routes that write users:
    when no two stored records share a username or an email, none do
    after a registration, whatever was served in between, nor after a
    profile update. *)
Theorem users_stay_unique (env : Env) (others : Db -> Db)
    (requester : Doc User.t) (req : Request) (db : Db) :
  uniqueUsers (users db) ->
  uniqueUsers (users (others db)) ->
  uniqueUsers (users (snd (AuthRoutes.register env others req db)))
  /\ uniqueUsers (users (snd (AuthRoutes.putProfile env requester req db))).
Proof.
  intros Hdb Hothers. split.
  - destruct (register_cases env others req db)
      as [[_ [-> | ->]] | (d & Hcreate & ->)]; [assumption | assumption |].
    cbn [snd users with_users].
    apply create_user in Hcreate
      as (un & em & pw & _ & _ & _ & -> & _ & Htaken & _).
    apply uniqueUsers_insert; assumption.
  - destruct (putProfile_cases env requester req db)
      as [[_ ->] | (u & u1 & _ & _ & Htaken & ->)]; [assumption |].
    cbn [snd users with_users]. apply uniqueUsers_insert; assumption.
Qed.
End UserStoreProperties.

Section LoginProperties.
Context `{Platform}.


(** The one record with a given email in a collection where nobody else
    has it. *)
Lemma findOne_email (id : ObjectId) (u : User.t) (m : gmap ObjectId User.t) :
  User.taken id u m = false ->
  findOne (fun v => User.holds (Some (User.email u)) (User.email v))
          (<[id := u]> m)
  = Some {| _id := id; doc := u |}.
Proof.
  intros Hfree.
  destruct (findOne _ _) as [[k v] |] eqn:Hfind.
  - apply findOne_Some in Hfind as [Hk Hq]. cbn in Hk, Hq.
    apply String.eqb_eq in Hq.
    destruct (decide (k = id)) as [-> | Hne].
    + rewrite lookup_insert_eq in Hk. congruence.
    + rewrite lookup_insert_ne in Hk by congruence.
      destruct (taken_false _ _ _ Hfree k v Hk Hne) as [_ He]. congruence.
  - pose proof (findOne_None _ _ Hfind id u (lookup_insert_eq _ _ _)) as Hq.
    cbn in Hq. rewrite String.eqb_refl in Hq. discriminate.
Qed.

(** X19. Registering and then logging in: after a registration answered
    201, a login that sends the same email and password and passes the
    login validators is answered 200 with a token issued for the new
    user, provided bcrypt verifies a password against its own digest. *)
Theorem register_then_login (env env' : Env) (others : Db -> Db)
    (req req' : Request) (db : Db) :
  status (fst (AuthRoutes.register env others req db)) = 201%Z ->
  prop (body req') "email" = prop (body req) "email" ->
  prop (body req') "password" = prop (body req) "password" ->
  validationResult AuthRoutes.loginChains (body req') = [] ->
  (forall pw, castString (prop (body req) "password") = Casted pw ->
     bcrypt_compare (prop (body req) "password")
                    (bcrypt_hash (genSalt env) pw) = Some true) ->
  exists j,
    AuthRoutes.login env' req' (snd (AuthRoutes.register env others req db))
    = (send 200 (Auth_ "Login successful" j
                       (AuthRoutes.generateToken env' (newObjectId env))),
       snd (AuthRoutes.register env others req db))
    /\ User.json_id j = newObjectId env
    /\ User.json_role j = user.
Proof.
  intros Hok Hemail Hpassword Hvalid Hbcrypt.
  destruct (register_cases env others req db)
    as [[Hnot _] | (d & Hcreate & ->)]; [contradiction |].
  apply create_user in Hcreate
    as (un & em & pw & _ & Hem & Hpw & -> & _ & Htaken & _).
  cbn [snd _id doc users with_users] in *.
  unfold AuthRoutes.login. rewrite Hvalid. cbn [isEmpty negb].
  unfold User.findByEmail, User.condition, nullable.
  rewrite Hemail, Hem. cbn [mbind Outcome_bind users with_users].
  pose proof (findOne_email _ _ _ Htaken) as Hfound.
  cbn [User.email] in Hfound. rewrite Hfound.
  unfold User.comparePassword. cbn [doc User.password].
  rewrite Hpassword, (Hbcrypt pw Hpw).
  eexists. split; [reflexivity |]. split; reflexivity.
Qed.

Lemma profileUpdates_username (b : gmap string JValue) :
  AuthRoutes.profileUpdates b !! "username"
  = if truthy (prop b "username") then Some (prop b "username") else None.
Proof.
  unfold AuthRoutes.profileUpdates.
  destruct (truthy (prop b "username")), (truthy (prop b "email"));
    rewrite ?(lookup_insert_ne _ "email" "username") by discriminate;
    rewrite ?lookup_insert_eq, ?lookup_empty; reflexivity.
Qed.

Lemma profileUpdates_email (b : gmap string JValue) :
  AuthRoutes.profileUpdates b !! "email"
  = if truthy (prop b "email") then Some (prop b "email") else None.
Proof.
  unfold AuthRoutes.profileUpdates.
  destruct (truthy (prop b "username")), (truthy (prop b "email"));
    rewrite ?lookup_insert_eq;
    rewrite ?(lookup_insert_ne _ "username" "email") by discriminate;
    rewrite ?lookup_empty; reflexivity.
Qed.

(** The record a profile's [updates] produce: a name or an email that is
    truthy in the body is the new one, one that is not leaves the old. *)
Lemma applyUpdate_profile_names (b : gmap string JValue) (u u1 : User.t) :
  User.applyUpdate (AuthRoutes.profileUpdates b) u = Returns u1 ->
  (if truthy (prop b "username")
   then required (castString (prop b "username"))
        = Returns (User.username u1)
   else User.username u1 = User.username u)
  /\ (if truthy (prop b "email")
      then required (castString (prop b "email")) = Returns (User.email u1)
      else User.email u1 = User.email u).
Proof.
  unfold User.applyUpdate, User.setPath.
  rewrite profileUpdates_username, profileUpdates_email.
  rewrite !profileUpdates_other by discriminate.
  destruct (truthy (prop b "username"));
    [destruct (required (castString (prop b "username"))) eqn:Eu;
     [discriminate |] |];
    cbn [mbind Outcome_bind];
    (destruct (truthy (prop b "email"));
     [destruct (required (castString (prop b "email"))) eqn:Ee;
      [discriminate |] |]);
    cbn [mbind Outcome_bind]; intros [= <-]; cbn; split; reflexivity.
Qed.

(** X20. A profile update answered 200 changes the record of the
    requester as the body says: a username or an email that is present
    and truthy becomes the new one as the store reads it, one that is
    absent or empty leaves the old, the update time is the time of the
    request, and the answer carries the record as stored. *)
Theorem putProfile_applies (env : Env) (requester : Doc User.t)
    (req : Request) (db : Db) :
  status (fst (AuthRoutes.putProfile env requester req db)) = 200%Z ->
  exists u u',
    users db !! _id requester = Some u
    /\ users (snd (AuthRoutes.putProfile env requester req db))
       !! _id requester = Some u'
    /\ json (fst (AuthRoutes.putProfile env requester req db))
       = Profile_ "Profile updated successfully"
                  (User.toJSON {| _id := _id requester; doc := u' |})
    /\ User.updatedAt u' = Date_now env
    /\ (if truthy (prop (body req) "username")
        then required (castString (prop (body req) "username"))
             = Returns (User.username u')
        else User.username u' = User.username u)
    /\ (if truthy (prop (body req) "email")
        then required (castString (prop (body req) "email"))
             = Returns (User.email u')
        else User.email u' = User.email u).
Proof.
  intros Hok.
  destruct (putProfile_cases env requester req db)
    as [[Hnot _] | (u & u1 & Hstored & Happly & _ & ->)]; [contradiction |].
  exists u, (User.set_updatedAt (Date_now env) u1).
  cbn [fst snd json send users with_users].
  rewrite lookup_insert_eq.
  apply applyUpdate_profile_names in Happly as [Hu He].
  repeat split; assumption.
Qed.

(** X21. A profile update that asks for a username another user has is
    answered 500 "Failed to update profile" and changes nothing: the
    refusal of the unique index falls into the catch-all handler. *)
Theorem putProfile_taken (env : Env) (requester : Doc User.t) (req : Request)
    (db : Db) (k : ObjectId) (v : User.t) :
  validationResult AuthRoutes.profileChains (body req) = [] ->
  users db !! k = Some v ->
  k <> _id requester ->
  User.username v <> "" ->
  prop (body req) "username" = JStr (User.username v) ->
  AuthRoutes.putProfile env requester req db
  = (send 500 (Error_ "Failed to update profile"), db).
Proof.
  intros Hvalid Hk Hne Hnonempty Hname.
  destruct (putProfile_cases env requester req db)
    as [[Hnot Hdb] | (u & u1 & _ & Happly & Htaken & _)].
  - revert Hnot Hdb. unfold AuthRoutes.putProfile.
    rewrite Hvalid. cbn [isEmpty negb].
    destruct (User.findByIdAndUpdate _ _ _ _) as [e | [[r |] us]]; cbn;
      intros Hnot Hdb; [reflexivity | contradiction | congruence].
  - exfalso. apply applyUpdate_profile_names in Happly as [Hu _].
    rewrite Hname in Hu. cbn in Hu.
    apply String.eqb_neq in Hnonempty. rewrite Hnonempty in Hu. cbn in Hu.
    injection Hu as Hu.
    rewrite (taken_true _ _ _ k v Hk Hne) in Htaken; [discriminate |].
    left. cbn. exact Hu.
Qed.
End LoginProperties.

(** ** The seeding script *)

Section SeedProperties.

Lemma hasTitle_true (t : string) (m : gmap ObjectId Book.t) :
  Seed.hasTitle t m = true
  <-> exists k b, m !! k = Some b /\ Book.title b = t.
Proof.
  unfold Seed.hasTitle. rewrite existsb_exists. split.
  - intros ([k b] & Hin & Heq). exists k, b.
    split; [apply elem_of_map_to_list, list_elem_of_In, Hin |].
    apply String.eqb_eq, Heq.
  - intros (k & b & Hk & Heq). exists (k, b).
    split; [apply list_elem_of_In, elem_of_map_to_list, Hk |].
    apply String.eqb_eq, Heq.
Qed.

Lemma hasEmail_true (e : string) (m : gmap ObjectId User.t) :
  Seed.hasEmail e m = true
  <-> exists k u, m !! k = Some u /\ User.email u = e.
Proof.
  unfold Seed.hasEmail. rewrite existsb_exists. split.
  - intros ([k u] & Hin & Heq). exists k, u.
    split; [apply elem_of_map_to_list, list_elem_of_In, Hin |].
    apply String.eqb_eq, Heq.
  - intros (k & u & Hk & Heq). exists (k, u).
    split; [apply list_elem_of_In, elem_of_map_to_list, Hk |].
    apply String.eqb_eq, Heq.
Qed.

Lemma hasTitle_mono (t : string) (m m' : gmap ObjectId Book.t) :
  (forall k b, m !! k = Some b -> m' !! k = Some b) ->
  Seed.hasTitle t m = true -> Seed.hasTitle t m' = true.
Proof.
  intros Hsub. rewrite !hasTitle_true. intros (k & b & Hk & Heq).
  exists k, b. split; [apply Hsub, Hk | exact Heq].
Qed.

(** What the loop over the sample books does to the collection. *)
Lemma seedBooks_effect (userId : ObjectId) (draw : nat -> Seed.Fresh)
    (samples : list Seed.Entry) :
  forall (i : nat) (m m' : gmap ObjectId Book.t) (err : option StoreError),
    Seed.seedBooks userId draw i samples m = (m', err) ->
    (forall k b, m !! k = Some b -> m' !! k = Some b)
    /\ (forall k b, m !! k = None -> m' !! k = Some b ->
          exists s f, s ∈ samples /\ b = Seed.bookOf userId s f)
    /\ (err = None ->
        forall s, s ∈ samples -> Seed.hasTitle (Seed.s_title s) m' = true).
Proof.
  induction samples as [| s rest IH]; intros i m m' err; cbn [Seed.seedBooks].
  - intros [= <- <-]. split; [tauto |]. split.
    + intros k b Hk Hk'. congruence.
    + intros _ s Hs. apply elem_of_nil in Hs. contradiction.
  - destruct (Seed.hasTitle (Seed.s_title s) m) eqn:Hhas.
    + intros Hrest. destruct (IH _ _ _ _ Hrest) as (Hkeep & Hnew & Hall).
      split; [exact Hkeep |]. split.
      * intros k b Hk Hk'. destruct (Hnew k b Hk Hk') as (s' & f & Hs' & ->).
        exists s', f. split; [right; exact Hs' | reflexivity].
      * intros Herr s' Hs'. apply elem_of_cons in Hs' as [-> | Hs'].
        -- eapply hasTitle_mono; eassumption.
        -- exact (Hall Herr s' Hs').
    + unfold Seed.insertBook.
      destruct (m !! Seed.fresh_id (draw i)) eqn:Hfresh.
      * intros [= <- <-]. split; [tauto |]. split.
        -- intros k b Hk Hk'. congruence.
        -- discriminate.
      * intros Hrest. destruct (IH _ _ _ _ Hrest) as (Hkeep & Hnew & Hall).
        split; [| split].
        -- intros k b Hk. apply Hkeep. rewrite lookup_insert_ne; [exact Hk |].
           congruence.
        -- intros k b Hk Hk'.
           destruct (decide (k = Seed.fresh_id (draw i))) as [-> | Hne].
           ++ exists s, (draw i). split; [left |].
              pose proof (Hkeep (Seed.fresh_id (draw i)) _
                            (lookup_insert_eq _ _ _)) as Hthere.
              congruence.
           ++ destruct (Hnew k b) as (s' & f & Hs' & ->);
                [rewrite lookup_insert_ne by congruence; exact Hk
                | exact Hk' |].
              exists s', f. split; [right; exact Hs' | reflexivity].
        -- intros Herr s' Hs'. apply elem_of_cons in Hs' as [-> | Hs'].
           ++ apply hasTitle_true.
              exists (Seed.fresh_id (draw i)), (Seed.bookOf userId s (draw i)).
              split; [apply Hkeep, lookup_insert_eq | reflexivity].
           ++ exact (Hall Herr s' Hs').
Qed.

Lemma seedBooks_settled (userId : ObjectId) (draw : nat -> Seed.Fresh)
    (samples : list Seed.Entry) (m : gmap ObjectId Book.t) :
  (forall s, s ∈ samples -> Seed.hasTitle (Seed.s_title s) m = true) ->
  forall i, Seed.seedBooks userId draw i samples m = (m, None).
Proof.
  induction samples as [| s rest IH]; intros Hall i; cbn [Seed.seedBooks];
    [reflexivity |].
  rewrite (Hall s) by left. apply IH. intros s' Hs'. apply Hall. right.
  exact Hs'.
Qed.

Lemma run_cases (me : Seed.Fresh) (draw : nat -> Seed.Fresh) (db db' : Db)
    (err : option StoreError) :
  Seed.run me draw db = (db', err) ->
  (db' = db /\ err <> None)
  \/ ((users db' = users db
       /\ Seed.hasEmail Seed.adminEmail (users db) = true
       \/ users db' = <[Seed.fresh_id me := Seed.adminUser me]> (users db)
          /\ users db !! Seed.fresh_id me = None)
      /\ Seed.seedBooks (Seed.fresh_id me) draw 0 Seed.sampleBooks (books db)
         = (books db', err)).
Proof.
  unfold Seed.run, Seed.insertUser.
  destruct (Seed.hasEmail Seed.adminEmail (users db)) eqn:Hhas.
  - destruct (Seed.seedBooks _ _ _ _ _) as [bs e]. intros [= <- <-].
    right. split; [left; split; reflexivity | reflexivity].
  - destruct (users db !! Seed.fresh_id me) eqn:Hfresh.
    + intros [= <- <-]. left. split; [reflexivity | discriminate].
    + destruct (User.taken _ _ _).
      * intros [= <- <-]. left. split; [reflexivity | discriminate].
      * destruct (Seed.seedBooks _ _ _ _ _) as [bs e]. intros [= <- <-].
        right. split; [right; split; reflexivity | reflexivity].
Qed.

(** X22. The seeding script adds and never changes: every user and every
    book stored before a run is stored unchanged after it. A book it
    adds is one of the sample books, path by path (title, author,
    description, genre, year and price of the sample, available, owned
    by the id the run generated), with the timestamps its insertion
    drew; when the run ends without an error, the admin email and the
    title of every sample book are in the stores. *)
Theorem seed_effect (me : Seed.Fresh) (draw : nat -> Seed.Fresh) (db db' : Db)
    (err : option StoreError) :
  Seed.run me draw db = (db', err) ->
  (forall k u, users db !! k = Some u -> users db' !! k = Some u)
  /\ (forall k b, books db !! k = Some b -> books db' !! k = Some b)
  /\ (forall k b, books db !! k = None -> books db' !! k = Some b ->
        exists s f,
          s ∈ Seed.sampleBooks /\ b = Seed.bookOf (Seed.fresh_id me) s f)
  /\ (err = None ->
      Seed.hasEmail Seed.adminEmail (users db') = true
      /\ forall s, s ∈ Seed.sampleBooks ->
           Seed.hasTitle (Seed.s_title s) (books db') = true).
Proof.
  intros Hrun.
  destruct (run_cases _ _ _ _ _ Hrun) as [[-> Herr] | [Husers Hbooks]].
  - split; [tauto |]. split; [tauto |]. split.
    + intros k b Hk Hk'. congruence.
    + intros ->. contradiction.
  - apply seedBooks_effect in Hbooks as (Hkeep & Hnew & Hall).
    split; [| split; [exact Hkeep | split]].
    + intros k u Hk. destruct Husers as [[-> _] | [-> Hfresh]]; [exact Hk |].
      rewrite lookup_insert_ne; [exact Hk | congruence].
    + exact Hnew.
    + intros Herr. split; [| exact (Hall Herr)].
      destruct Husers as [[-> Hhas] | [-> _]]; [exact Hhas |].
      apply hasEmail_true. exists (Seed.fresh_id me), (Seed.adminUser me).
      split; [apply lookup_insert_eq | reflexivity].
Qed.

(** X23. Running the seeding script again is a no-op: after a run that
    ended without an error, any further run, whatever ids and clock
    readings it draws, leaves the stores exactly as they are and ends
    without an error. *)
Theorem seed_idempotent (me me' : Seed.Fresh) (draw draw' : nat -> Seed.Fresh)
    (db db' : Db) :
  Seed.run me draw db = (db', None) ->
  Seed.run me' draw' db' = (db', None).
Proof.
  intros Hrun.
  destruct (run_cases _ _ _ _ _ Hrun) as [[_ Herr] | [Husers Hbooks]];
    [contradiction |].
  apply seedBooks_effect in Hbooks as (_ & _ & Hall).
  assert (Hhas : Seed.hasEmail Seed.adminEmail (users db') = true).
  { destruct Husers as [[-> Hhas] | [-> _]]; [exact Hhas |].
    apply hasEmail_true. exists (Seed.fresh_id me), (Seed.adminUser me).
    split; [apply lookup_insert_eq | reflexivity]. }
  unfold Seed.run. rewrite Hhas.
  rewrite (seedBooks_settled _ _ _ _ (Hall eq_refl)).
  destruct db'. reflexivity.
Qed.

(** X24. When a user with the admin email is already stored, the script
    inserts no user, yet gives the books it adds the id it generated for
    one: unless that id happens to be a stored user's, every book the
    run adds names an owner that no stored user has. *)
Theorem seed_orphans (me : Seed.Fresh) (draw : nat -> Seed.Fresh) (db db' : Db)
    (err : option StoreError) :
  Seed.run me draw db = (db', err) ->
  Seed.hasEmail Seed.adminEmail (users db) = true ->
  users db !! Seed.fresh_id me = None ->
  users db' = users db
  /\ forall k b, books db !! k = None -> books db' !! k = Some b ->
       users db' !! Book.addedBy b = None.
Proof.
  intros Hrun Hhas Hfresh.
  assert (Husers : users db' = users db).
  { revert Hrun. unfold Seed.run. rewrite Hhas.
    destruct (Seed.seedBooks _ _ _ _ _) as [bs e]. intros [= <- _].
    reflexivity. }
  split; [exact Husers |]. intros k b Hk Hk'.
  revert Hrun. unfold Seed.run. rewrite Hhas.
  destruct (Seed.seedBooks _ _ _ _ _) as [bs e] eqn:Hbooks.
  intros [= <- <-]. cbn [users books] in *.
  apply seedBooks_effect in Hbooks as (_ & Hnew & _).
  destruct (Hnew k b Hk Hk') as (s & f & _ & ->). cbn. exact Hfresh.
Qed.
End SeedProperties.

(** ** The further properties at concrete requests *)

Section FurtherWitnesses.
#[local] Existing Instance Sample.platform.

Lemma put_changes_named_paths_only_witness :
  Book.author Cases.renamed = Book.author Sample.dune
  /\ Book.addedBy Cases.renamed = Book.addedBy Sample.dune.
Proof.
  destruct (put_changes_named_paths_only Sample.today Sample.alice
              Cases.rename Sample.db Sample.dune_id Sample.dune Cases.renamed)
    as [(_ & Hauthor & _) (_ & _ & _ & Howner)].
  - vm_compute. reflexivity.
  - vm_compute. reflexivity.
  - vm_compute. reflexivity.
  - split; [apply Hauthor | apply Howner]; vm_compute; reflexivity.
Defined.


Lemma sample_books_conform (k : ObjectId) (b : Book.t) :
  books Sample.db !! k = Some b ->
  conforms (Sample.env 5000 Cases.emma_id) b = true.
Proof.
  unfold Sample.db. cbn [books]. intros Hk.
  apply lookup_insert_Some in Hk as [[_ <-] | [_ Hk]].
  - vm_compute. reflexivity.
  - rewrite lookup_empty in Hk. discriminate.
Defined.

Lemma writes_keep_schema_witness :
  (status (fst (BookRoutes.post (Sample.env 5000 Cases.emma_id) Sample.alice
                  Cases.retitle Sample.db)) = 201%Z
   /\ forall k b,
        books (snd (BookRoutes.post (Sample.env 5000 Cases.emma_id)
                      Sample.alice Cases.retitle Sample.db)) !! k = Some b ->
        conforms (Sample.env 5000 Cases.emma_id) b = true)
  /\ (status (fst (BookRoutes.put (Sample.env 5000 Cases.emma_id) Sample.alice
                     Cases.retitle Sample.db)) = 200%Z
      /\ forall k b,
           books (snd (BookRoutes.put (Sample.env 5000 Cases.emma_id)
                         Sample.alice Cases.retitle Sample.db)) !! k
           = Some b ->
           conforms (Sample.env 5000 Cases.emma_id) b = true).
Proof.
  destruct (writes_keep_schema (Sample.env 5000 Cases.emma_id) Sample.alice
              Cases.retitle Sample.db sample_books_conform) as [Hpost Hput].
  split; (split; [vm_compute; reflexivity |]); [exact Hpost |].
  apply Hput. vm_compute. reflexivity.
Defined.

Lemma post_then_get_witness :
  BookRoutes.getById Cases.getEmma
    (snd (BookRoutes.post (Sample.env 5000 Cases.emma_id) Sample.alice
            Cases.addEmma Sample.db))
  = (send 200 (Book_ Cases.emma),
     snd (BookRoutes.post (Sample.env 5000 Cases.emma_id) Sample.alice
            Cases.addEmma Sample.db)).
Proof.
  apply (post_then_get (Sample.env 5000 Cases.emma_id) Sample.alice
           Cases.addEmma Cases.getEmma Sample.db Cases.emma).
  - vm_compute. reflexivity.
  - vm_compute. reflexivity.
Defined.


Lemma getAll_page_shape_witness :
  exists bs pg,
    json (fst (BookRoutes.getAll Cases.available Sample.db)) = Books_ bs pg
    /\ (length bs <= Z.to_nat (Z.abs (limit pg)))%nat
    /\ StronglySorted
         (fun x y => (Book.createdAt (doc y) <= Book.createdAt (doc x))%Z)
         (Book.book <$> bs)
    /\ NoDup ((fun p => _id (Book.book p)) <$> bs).
Proof.
  apply (getAll_page_shape Cases.available Sample.db).
  vm_compute. reflexivity.
Defined.

Lemma getAll_available_witness :
  Book.available
    (doc (Book.book
            (Book.populate (users Sample.db)
               {| _id := Sample.dune_id; doc := Sample.dune |})))
  = Some (String.eqb "true" "true").
Proof.
  apply (getAll_available Cases.available Sample.db Cases.firstPage
           Cases.onePage "true").
  - vm_compute. reflexivity.
  - vm_compute. reflexivity.
  - unfold Cases.firstPage. set_solver.
Defined.

Lemma getAll_pages_witness :
  (0 <= total Cases.onePage)%Z
  /\ ((0 < limit Cases.onePage)%Z ->
      ((pages Cases.onePage - 1) * limit Cases.onePage
       < total Cases.onePage
       <= pages Cases.onePage * limit Cases.onePage)%Z)
  /\ ((limit Cases.onePage < 0)%Z -> (pages Cases.onePage <= 0)%Z).
Proof.
  apply (getAll_pages Cases.available Sample.db Cases.firstPage
           Cases.onePage).
  vm_compute. reflexivity.
Defined.

Lemma myBooks_own_witness :
  snd (BookRoutes.myBooks Sample.alice (Sample.request None "" ∅) Sample.db)
  = Sample.db
  /\ (forall p, p ∈ Cases.firstPage ->
        books Sample.db !! _id (Book.book p) = Some (doc (Book.book p))
        /\ Book.addedBy (doc (Book.book p)) = _id Sample.alice)
  /\ NoDup ((fun p => _id (Book.book p)) <$> Cases.firstPage)
  /\ StronglySorted
       (fun x y => (Book.createdAt (doc y) <= Book.createdAt (doc x))%Z)
       (Book.book <$> Cases.firstPage).
Proof.
  apply (myBooks_own Sample.alice (Sample.request None "" ∅) Sample.db
           Cases.firstPage Cases.onePage).
  vm_compute. reflexivity.
Defined.

Lemma register_created_witness :
  exists un em pw,
    castString (prop (body Cases.registerCarol) "username") = Casted un
    /\ castString (prop (body Cases.registerCarol) "email") = Casted em
    /\ castString (prop (body Cases.registerCarol) "password") = Casted pw
    /\ users Sample.db !! newObjectId (Sample.env 5000 Sample.carol_id) = None
    /\ AuthRoutes.register (Sample.env 5000 Sample.carol_id) (fun d => d)
         Cases.registerCarol Sample.db
       = (send 201
            (Auth_ "User registered successfully"
               {| User.json_id := newObjectId (Sample.env 5000 Sample.carol_id);
                  User.json_username := un; User.json_email := em;
                  User.json_role := user;
                  User.json_createdAt :=
                    Date_now (Sample.env 5000 Sample.carol_id);
                  User.json_updatedAt :=
                    Date_now (Sample.env 5000 Sample.carol_id) |}
               (AuthRoutes.generateToken (Sample.env 5000 Sample.carol_id)
                  (newObjectId (Sample.env 5000 Sample.carol_id)))),
          with_users
            (<[newObjectId (Sample.env 5000 Sample.carol_id) :=
                 {| User.username := un; User.email := em;
                    User.password :=
                      bcrypt_hash (genSalt (Sample.env 5000 Sample.carol_id))
                                  pw;
                    User.role := user;
                    User.createdAt :=
                      Date_now (Sample.env 5000 Sample.carol_id);
                    User.updatedAt :=
                      Date_now (Sample.env 5000 Sample.carol_id) |}]>
               (users Sample.db))
            Sample.db).
Proof.
  apply (register_created (Sample.env 5000 Sample.carol_id) (fun d => d)
           Cases.registerCarol Sample.db).
  vm_compute. reflexivity.
Defined.

Lemma sample_users_unique : uniqueUsers (users Sample.db).
Proof.
  intros k1 k2 u1 u2 H1 H2 Hsame. unfold Sample.db in H1, H2.
  cbn [users] in H1, H2.
  repeat (apply lookup_insert_Some in H1 as [[<- <-] | [? H1]]);
    try (rewrite lookup_empty in H1; discriminate);
    repeat (apply lookup_insert_Some in H2 as [[<- <-] | [? H2]]);
    try (rewrite lookup_empty in H2; discriminate);
    try reflexivity;
    exfalso; destruct Hsame as [Hsame | Hsame]; vm_compute in Hsame;
    discriminate.
Defined.

Lemma users_stay_unique_witness :
  (status (fst (AuthRoutes.register (Sample.env 5000 Sample.carol_id)
                  (fun d => d) Cases.registerCarol Sample.db)) = 201%Z
   /\ uniqueUsers
        (users (snd (AuthRoutes.register (Sample.env 5000 Sample.carol_id)
                       (fun d => d) Cases.registerCarol Sample.db))))
  /\ (status (fst (AuthRoutes.putProfile (Sample.env 5000 Sample.carol_id)
                     Sample.alice Cases.registerCarol Sample.db)) = 200%Z
      /\ uniqueUsers
           (users (snd (AuthRoutes.putProfile
                          (Sample.env 5000 Sample.carol_id) Sample.alice
                          Cases.registerCarol Sample.db)))).
Proof.
  destruct (users_stay_unique (Sample.env 5000 Sample.carol_id) (fun d => d)
              Sample.alice Cases.registerCarol Sample.db
              sample_users_unique sample_users_unique) as [Hreg Hput].
  split; (split; [vm_compute; reflexivity |]); assumption.
Defined.

Lemma register_then_login_witness :
  exists j,
    AuthRoutes.login Sample.today Cases.loginCarol
      (snd (AuthRoutes.register (Sample.env 5000 Sample.carol_id)
              (fun d => d) Cases.registerCarol Sample.db))
    = (send 200
         (Auth_ "Login successful" j
            (AuthRoutes.generateToken Sample.today
               (newObjectId (Sample.env 5000 Sample.carol_id)))),
       snd (AuthRoutes.register (Sample.env 5000 Sample.carol_id)
              (fun d => d) Cases.registerCarol Sample.db))
    /\ User.json_id j = newObjectId (Sample.env 5000 Sample.carol_id)
    /\ User.json_role j = user.
Proof.
  apply (register_then_login (Sample.env 5000 Sample.carol_id) Sample.today
           (fun d => d) Cases.registerCarol Cases.loginCarol Sample.db).
  - vm_compute. reflexivity.
  - vm_compute. reflexivity.
  - vm_compute. reflexivity.
  - vm_compute. reflexivity.
  - intros pw Hpw. vm_compute in Hpw. injection Hpw as <-.
    vm_compute. reflexivity.
Defined.

Lemma putProfile_applies_witness :
  exists u u',
    users Sample.db !! _id Sample.alice = Some u
    /\ users (snd (AuthRoutes.putProfile Sample.today Sample.alice
                     Cases.becomeAlicia Sample.db))
       !! _id Sample.alice = Some u'
    /\ json (fst (AuthRoutes.putProfile Sample.today Sample.alice
                    Cases.becomeAlicia Sample.db))
       = Profile_ "Profile updated successfully"
                  (User.toJSON {| _id := _id Sample.alice; doc := u' |})
    /\ User.updatedAt u' = Date_now Sample.today
    /\ (if truthy (prop (body Cases.becomeAlicia) "username")
        then required (castString (prop (body Cases.becomeAlicia) "username"))
             = Returns (User.username u')
        else User.username u' = User.username u)
    /\ (if truthy (prop (body Cases.becomeAlicia) "email")
        then required (castString (prop (body Cases.becomeAlicia) "email"))
             = Returns (User.email u')
        else User.email u' = User.email u).
Proof.
  apply (putProfile_applies Sample.today Sample.alice Cases.becomeAlicia
           Sample.db).
  vm_compute. reflexivity.
Defined.

Lemma putProfile_taken_witness :
  AuthRoutes.putProfile Sample.today Sample.alice Cases.becomeBob Sample.db
  = (send 500 (Error_ "Failed to update profile"), Sample.db).
Proof.
  apply (putProfile_taken Sample.today Sample.alice Cases.becomeBob Sample.db
           Sample.bob_id (doc Sample.bob)).
  - vm_compute. reflexivity.
  - vm_compute. reflexivity.
  - vm_compute. discriminate.
  - vm_compute. discriminate.
  - vm_compute. reflexivity.
Defined.

Lemma seed_effect_witness :
  (forall k u, users Sample.nobody !! k = Some u ->
     users Cases.seeded !! k = Some u)
  /\ (forall k b, books Sample.nobody !! k = Some b ->
        books Cases.seeded !! k = Some b)
  /\ (forall k b, books Sample.nobody !! k = None ->
        books Cases.seeded !! k = Some b ->
        exists s f,
          s ∈ Seed.sampleBooks
          /\ b = Seed.bookOf (Seed.fresh_id Cases.me) s f)
  /\ (@None StoreError = None ->
      Seed.hasEmail Seed.adminEmail (users Cases.seeded) = true
      /\ forall s, s ∈ Seed.sampleBooks ->
           Seed.hasTitle (Seed.s_title s) (books Cases.seeded) = true).
Proof.
  apply (seed_effect Cases.me Cases.draw Sample.nobody Cases.seeded None).
  vm_compute. reflexivity.
Defined.

Lemma seed_idempotent_witness :
  Seed.run Cases.meAgain Cases.drawAgain Cases.seeded = (Cases.seeded, None).
Proof.
  apply (seed_idempotent Cases.me Cases.meAgain Cases.draw Cases.drawAgain
           Sample.nobody Cases.seeded).
  vm_compute. reflexivity.
Defined.

Lemma seed_orphans_witness :
  users (fst (Seed.run Cases.meAgain Cases.drawAgain Cases.adminOnly))
  = users Cases.adminOnly
  /\ forall k b,
       books Cases.adminOnly !! k = None ->
       books (fst (Seed.run Cases.meAgain Cases.drawAgain Cases.adminOnly))
       !! k = Some b ->
       users (fst (Seed.run Cases.meAgain Cases.drawAgain Cases.adminOnly))
       !! Book.addedBy b = None.
Proof.
  apply (seed_orphans Cases.meAgain Cases.drawAgain Cases.adminOnly
           (fst (Seed.run Cases.meAgain Cases.drawAgain Cases.adminOnly))
           None).
  - vm_compute. reflexivity.
  - vm_compute. reflexivity.
  - vm_compute. reflexivity.
Defined.
End FurtherWitnesses.
